(** * Todo CLI: the task management engine of [main.py]

    A shallow embedding of the task model ([Task], [Priority], [Status]),
    the persistence layer ([TodoStorage]) and the business logic
    ([TodoManager]) of the todo command-line application, with the
    properties of the engine proved about it.

    Python values that the program reads back from its JSON file are
    dynamically typed; they are modelled by [Py.val].  The manager works on
    tasks whose attributes have the types the source annotates
    ([Optional[int]], [str], [Priority], ...): record [Task]. *)

From Stdlib Require Import ZArith Lia String Ascii.
From stdpp Require Import base option list strings.

Local Open Scope string_scope.
Local Open Scope Z_scope.
Local Open Scope list_scope.

(** ** Python values, truthiness and exceptions *)

Module Py.

(** The values [json.load] can return.  A float is kept only up to what the
    program observes of it, whether it is non-zero (its truth value); a dict
    is its list of items, keys unique, in insertion order. *)
#[warnings="-register-all"] Inductive val : Type :=
| VNone
| VBool (b : bool)
| VInt (z : Z)
| VFloat (nonzero : bool)
| VStr (s : string)
| VList (l : list val)
| VDict (items : list (string * val)).

(** [bool(v)], the test behind [if v] and [v or w]. *)
Definition truthy (v : val) : bool :=
  match v with
  | VNone => false
  | VBool b => b
  | VInt z => negb (z =? 0)
  | VFloat nz => nz
  | VStr s => negb (String.eqb s "")
  | VList l => match l with [] => false | _ => true end
  | VDict items => match items with [] => false | _ => true end
  end.

(** [x or y] *)
Definition or_ (x y : val) : val := if truthy x then x else y.

(** The classes of [Exception] that the program can meet.  [OtherException]
    stands for any class outside the families of [ValueError] and
    [KeyError], [AttributeError], [TypeError] and [OSError]. *)
Inductive exn : Type :=
| JSONDecodeError
| UnicodeDecodeError
| ValueError
| KeyError (key : string)
| AttributeError
| TypeError
| OSError
| OtherException (name : string).

(** [isinstance(e, ValueError)]: [json.JSONDecodeError] and
    [UnicodeDecodeError] are subclasses of [ValueError]. *)
Definition is_ValueError (e : exn) : bool :=
  match e with
  | JSONDecodeError | UnicodeDecodeError | ValueError => true
  | _ => false
  end.

Definition is_KeyError (e : exn) : bool :=
  match e with KeyError _ => true | _ => false end.

(** Results of code that returns or raises. *)
Inductive except (A : Type) : Type :=
| Return (a : A)
| Raise (e : exn).
Arguments Return {A} a.
Arguments Raise {A} e.

Definition ebind {A B} (m : except A) (k : A -> except B) : except B :=
  match m with
  | Return a => k a
  | Raise e => Raise e
  end.

(** [d.get(k)] on the items of a dict. *)
Fixpoint items_get (k : string) (items : list (string * val)) : option val :=
  match items with
  | [] => None
  | (k', v) :: rest => if String.eqb k k' then Some v else items_get k rest
  end.

(** [data.get(k, default)]; on anything but a dict the attribute [get] is
    missing. *)
Definition get (data : val) (k : string) (default : val) : except val :=
  match data with
  | VDict items => Return (from_option id default (items_get k items))
  | _ => Raise AttributeError
  end.

End Py.

Import Py.

Notation "x <-! m ;; k" := (ebind m (fun x => k))
  (at level 100, m at next level, right associativity).

(** ** The clock

    [datetime.now()] returns a (naive) [datetime]; [isoformat] is the
    library's rendering [YYYY-MM-DDTHH:MM:SS], followed by [.ffffff] when the
    microsecond is not 0.  The library keeps every component within its
    width (a year has at most four digits, a month two, ...). *)

Record datetime : Type := mkDatetime {
  year : N; month : N; day : N;
  hour : N; minute : N; second : N; microsecond : N
}.

Definition digit (n : N) : ascii := ascii_of_N (48 + n mod 10).

(** The [width] low decimal digits of [n], most significant first. *)
Fixpoint zfill (width : nat) (n : N) : string :=
  match width with
  | O => ""
  | S w => zfill w (n / 10) +:+ String (digit n) ""
  end.

Definition isoformat (d : datetime) : string :=
  zfill 4 (year d) +:+ "-" +:+ zfill 2 (month d) +:+ "-" +:+ zfill 2 (day d)
  +:+ "T" +:+ zfill 2 (hour d) +:+ ":" +:+ zfill 2 (minute d)
  +:+ ":" +:+ zfill 2 (second d)
  +:+ (if (microsecond d =? 0)%N then "" else "." +:+ zfill 6 (microsecond d)).

Definition is_digit (c : ascii) : bool :=
  ((48 <=? N_of_ascii c) && (N_of_ascii c <=? 57))%N.

(** [shape_match shape s]: [s] has the length of [shape], a decimal digit
    wherever [shape] has the letter d, and the character of [shape]
    elsewhere. *)
Fixpoint shape_match (shape s : string) : bool :=
  match shape, s with
  | EmptyString, EmptyString => true
  | String p shape', String c s' =>
      (if Ascii.eqb p "d" then is_digit c else Ascii.eqb p c)
      && shape_match shape' s'
  | _, _ => false
  end.

(** ISO-8601 date and time in the extended format, to the second or to the
    microsecond. *)
Definition is_iso8601 (s : string) : bool :=
  shape_match "dddd-dd-ddTdd:dd:dd" s
  || shape_match "dddd-dd-ddTdd:dd:dd.dddddd" s.

(** ** Data models and enums *)

Inductive Priority : Type := LOW | MEDIUM | HIGH.

Inductive Status : Type := PENDING | IN_PROGRESS | COMPLETED.

#[global] Instance Priority_eq_dec : EqDecision Priority.
Proof. solve_decision. Defined.

#[global] Instance Status_eq_dec : EqDecision Status.
Proof. solve_decision. Defined.

(** [priority.value] *)
Definition Priority_value (p : Priority) : string :=
  match p with
  | LOW => "low"
  | MEDIUM => "medium"
  | HIGH => "high"
  end.

(** [status.value] *)
Definition Status_value (s : Status) : string :=
  match s with
  | PENDING => "pending"
  | IN_PROGRESS => "in_progress"
  | COMPLETED => "completed"
  end.

(** [Priority(v)]: the member whose value is [v], [ValueError] when there is
    none. *)
Definition Priority_of (v : val) : except Priority :=
  match v with
  | VStr s =>
      if String.eqb s "low" then Return LOW
      else if String.eqb s "medium" then Return MEDIUM
      else if String.eqb s "high" then Return HIGH
      else Raise ValueError
  | _ => Raise ValueError
  end.

(** [Status(v)] *)
Definition Status_of (v : val) : except Status :=
  match v with
  | VStr s =>
      if String.eqb s "pending" then Return PENDING
      else if String.eqb s "in_progress" then Return IN_PROGRESS
      else if String.eqb s "completed" then Return COMPLETED
      else Raise ValueError
  | _ => Raise ValueError
  end.

(** A task with attributes of the annotated types. *)
Record Task : Type := mkTask {
  task_id : option Z;
  title : string;
  description : string;
  priority : Priority;
  status : Status;
  created_at : string;
  completed_at : option string
}.

(** [Task.__init__]; [now] is the reading of the clock during the call. *)
Definition Task_init (now : datetime) (title description : string)
    (priority : Priority) (status : Status)
    (created_at completed_at : option string) (task_id : option Z) : Task :=
  {| task_id := task_id;
     title := title;
     description := description;
     priority := priority;
     status := status;
     created_at :=
       match created_at with
       | Some s => if String.eqb s "" then isoformat now else s
       | None => isoformat now
       end;
     completed_at := completed_at |}.

(** [Task.mark_completed] *)
Definition Task_mark_completed (now : datetime) (t : Task) : Task :=
  {| task_id := task_id t; title := title t; description := description t;
     priority := priority t;
     status := COMPLETED;
     created_at := created_at t;
     completed_at := Some (isoformat now) |}.

(** [Task.mark_in_progress] *)
Definition Task_mark_in_progress (t : Task) : Task :=
  {| task_id := task_id t; title := title t; description := description t;
     priority := priority t;
     status := IN_PROGRESS;
     created_at := created_at t;
     completed_at := None |}.

Definition val_of_int (i : option Z) : val :=
  match i with Some n => VInt n | None => VNone end.

Definition val_of_str (s : option string) : val :=
  match s with Some x => VStr x | None => VNone end.

(** [Task.to_dict] *)
Definition to_dict (t : Task) : val :=
  VDict [ ("task_id", val_of_int (task_id t));
          ("title", VStr (title t));
          ("description", VStr (description t));
          ("priority", VStr (Priority_value (priority t)));
          ("status", VStr (Status_value (status t)));
          ("created_at", VStr (created_at t));
          ("completed_at", val_of_str (completed_at t)) ].

(** A [Task] instance as [from_dict] builds it from a decoded record: the
    attributes that the code does not check hold whatever the record held. *)
Record TaskObj : Type := mkTaskObj {
  obj_task_id : val;
  obj_title : val;
  obj_description : val;
  obj_priority : Priority;
  obj_status : Status;
  obj_created_at : val;
  obj_completed_at : val
}.

(** [Task.__init__] on the values of a decoded record. *)
Definition TaskObj_init (now : datetime) (title description : val)
    (priority : Priority) (status : Status)
    (created_at completed_at task_id : val) : TaskObj :=
  {| obj_task_id := task_id;
     obj_title := title;
     obj_description := description;
     obj_priority := priority;
     obj_status := status;
     obj_created_at := or_ created_at (VStr (isoformat now));
     obj_completed_at := completed_at |}.

(** [data["title"]] *)
Definition subscript (data : val) (k : string) : except val :=
  match data with
  | VDict items =>
      match items_get k items with
      | Some v => Return v
      | None => Raise (KeyError k)
      end
  | _ => Raise TypeError
  end.

(** [Task.from_dict]; the arguments of the call are evaluated in the order
    they are written. *)
Definition from_dict (now : datetime) (data : val) : except TaskObj :=
  task_id <-! get data "task_id" VNone ;;
  title <-! subscript data "title" ;;
  description <-! get data "description" (VStr "") ;;
  priority_value <-! get data "priority" (VStr (Priority_value MEDIUM)) ;;
  priority <-! Priority_of priority_value ;;
  status_value <-! get data "status" (VStr (Status_value PENDING)) ;;
  status <-! Status_of status_value ;;
  created_at <-! get data "created_at" VNone ;;
  completed_at <-! get data "completed_at" VNone ;;
  Return (TaskObj_init now title description priority status
            created_at completed_at task_id).

(** The instance with the attributes of a typed task, and back. *)
Definition obj_of_task (t : Task) : TaskObj :=
  {| obj_task_id := val_of_int (task_id t);
     obj_title := VStr (title t);
     obj_description := VStr (description t);
     obj_priority := priority t;
     obj_status := status t;
     obj_created_at := VStr (created_at t);
     obj_completed_at := val_of_str (completed_at t) |}.

Definition int_of_val (v : val) : option (option Z) :=
  match v with VNone => Some None | VInt n => Some (Some n) | _ => None end.

Definition str_of_val (v : val) : option string :=
  match v with VStr s => Some s | _ => None end.

Definition optstr_of_val (v : val) : option (option string) :=
  match v with VNone => Some None | VStr s => Some (Some s) | _ => None end.

(** The typed task an instance is; [None] when an attribute is outside its
    annotated type. *)
Definition task_of_obj (o : TaskObj) : option Task :=
  i ← int_of_val (obj_task_id o);
  t ← str_of_val (obj_title o);
  d ← str_of_val (obj_description o);
  c ← str_of_val (obj_created_at o);
  f ← optstr_of_val (obj_completed_at o);
  Some {| task_id := i; title := t; description := d;
          priority := obj_priority o; status := obj_status o;
          created_at := c; completed_at := f |}.

(** ** The world the program runs in

    [tasks] is the list held by the manager ([self.tasks]); [file] is what
    reading [DATA_FILE] gives; [writable] tells whether opening it for
    writing succeeds; [console] collects what is printed; [saves] records
    every call of [TodoStorage.save_tasks] with the collection it was given. *)

Inductive file_state : Type :=
| NoFile                  (* [DATA_FILE.exists()] is false *)
| Fails (e : exn)         (* opening, reading or [json.load] raises [e] *)
| Decoded (data : val).   (* [json.load] returns [data] *)

Inductive message : Type :=
| ErrorLoading (e : exn)
| StartingEmpty
| UnexpectedErrorLoading (e : exn)
| ErrorSaving (e : exn).

Record World : Type := mkWorld {
  tasks : list Task;
  file : file_state;
  writable : bool;
  console : list message;
  saves : list (list Task)
}.

Definition set_tasks (ts : list Task) (w : World) : World :=
  {| tasks := ts; file := file w; writable := writable w;
     console := console w; saves := saves w |}.

Definition set_file (f : file_state) (w : World) : World :=
  {| tasks := tasks w; file := f; writable := writable w;
     console := console w; saves := saves w |}.

Definition print (m : message) (w : World) : World :=
  {| tasks := tasks w; file := file w; writable := writable w;
     console := console w ++ [m]; saves := saves w |}.

Definition record_save (ts : list Task) (w : World) : World :=
  {| tasks := tasks w; file := file w; writable := writable w;
     console := console w; saves := saves w ++ [ts] |}.

(** A call returns a value or raises, and leaves a world. *)
Inductive outcome (A : Type) : Type :=
| Ok (a : A) (w : World)
| Raised (e : exn) (w : World).
Arguments Ok {A} a w.
Arguments Raised {A} e w.

Definition M (A : Type) : Type := World -> outcome A.

Definition ret {A} (a : A) : M A := fun w => Ok a w.

Definition bind {A B} (m : M A) (k : A -> M B) : M B :=
  fun w => match m w with
           | Ok a w' => k a w'
           | Raised e w' => Raised e w'
           end.

Definition lift {A} (r : except A) : M A :=
  fun w => match r with Return a => Ok a w | Raise e => Raised e w end.

Definition gets {A} (f : World -> A) : M A := fun w => Ok (f w) w.

Definition modify (f : World -> World) : M unit := fun w => Ok tt (f w).

(** [try: body except Exception as e: handler(e)] *)
Definition try_except {A} (body : M A) (handler : exn -> M A) : M A :=
  fun w => match body w with
           | Ok a w' => Ok a w'
           | Raised e w' => handler e w'
           end.

Notation "x <- m ;; k" := (bind m (fun x => k))
  (at level 100, m at next level, right associativity).
Notation "m ;;; k" := (bind m (fun _ => k))
  (at level 100, right associativity).

(** ** Data persistence layer *)

Module TodoStorage.

(** The characters of a string, as [for c in s] yields them. *)
Fixpoint chars (s : string) : list val :=
  match s with
  | EmptyString => []
  | String c s' => VStr (String c "") :: chars s'
  end.

(** [iter(data)]: the elements of a list, the keys of a dict, the
    characters of a string; nothing else is iterable. *)
Definition iterate (data : val) : except (list val) :=
  match data with
  | VList l => Return l
  | VDict items => Return (map (fun kv => VStr (fst kv)) items)
  | VStr s => Return (chars s)
  | _ => Raise TypeError
  end.

(** [[Task.from_dict(task_data) for task_data in data]]; [clock i] is the
    reading of the clock while the record at position [i] is built. *)
Fixpoint from_dicts (clock : nat -> datetime) (i : nat) (l : list val)
  : except (list TaskObj) :=
  match l with
  | [] => Return []
  | task_data :: rest =>
      o <-! from_dict (clock i) task_data ;;
      os <-! from_dicts clock (S i) rest ;;
      Return (o :: os)
  end.

(** The body of the [try] of [load_tasks]. *)
Definition load_tasks_body (clock : nat -> datetime) : M (list TaskObj) :=
  f <- gets file ;;
  match f with
  | NoFile => ret []
  | Fails e => lift (Raise e)
  | Decoded data =>
      lift (l <-! iterate data ;; from_dicts clock 0 l)
  end.

(** [TodoStorage.load_tasks] *)
Definition load_tasks (clock : nat -> datetime) : M (list TaskObj) :=
  try_except (load_tasks_body clock)
    (fun e =>
       if is_ValueError e || is_KeyError e then
         modify (print (ErrorLoading e)) ;;;
         modify (print StartingEmpty) ;;;
         ret []
       else
         modify (print (UnexpectedErrorLoading e)) ;;;
         ret []).

(** [json.dump] of the records into [DATA_FILE] opened for writing: the
    file then decodes to the records written; [OSError] when the file
    cannot be opened, and it is left as it was. *)
Definition write_json (data : val) : M unit :=
  ok <- gets writable ;;
  if ok : bool then modify (set_file (Decoded data))
  else lift (Raise OSError).

(** [TodoStorage.save_tasks] *)
Definition save_tasks (ts : list Task) : M bool :=
  modify (record_save ts) ;;;
  try_except
    (let task_data := map to_dict ts in
     write_json (VList task_data) ;;;
     ret true)
    (fun e =>
       modify (print (ErrorSaving e)) ;;;
       ret false).

End TodoStorage.

(** ** Business logic layer *)

Module TodoManager.

(** [max(max_id, task.task_id)] over the tasks that have an ID: the first
    loop of [_assign_task_ids]. *)
Fixpoint highest_id (max_id : Z) (ts : list Task) : Z :=
  match ts with
  | [] => max_id
  | task :: rest =>
      match task_id task with
      | Some n => highest_id (Z.max max_id n) rest
      | None => highest_id max_id rest
      end
  end.

Definition with_task_id (n : Z) (t : Task) : Task :=
  {| task_id := Some n; title := title t; description := description t;
     priority := priority t; status := status t;
     created_at := created_at t; completed_at := completed_at t |}.

(** The second loop of [_assign_task_ids]. *)
Fixpoint fill_ids (max_id : Z) (ts : list Task) : list Task :=
  match ts with
  | [] => []
  | task :: rest =>
      match task_id task with
      | None => with_task_id (max_id + 1) task :: fill_ids (max_id + 1) rest
      | Some _ => task :: fill_ids max_id rest
      end
  end.

(** [TodoManager._assign_task_ids] *)
Definition _assign_task_ids (ts : list Task) : list Task :=
  fill_ids (highest_id 0 ts) ts.

(** [if task.task_id]: the ID is there and is not 0. *)
Definition id_truthy (t : Task) : bool :=
  match task_id t with
  | Some n => negb (n =? 0)
  | None => false
  end.

(** [max(...)] of a sequence of integers; [ValueError] on an empty one. *)
Definition py_max (l : list Z) : except Z :=
  match l with
  | [] => Raise ValueError
  | x :: rest => Return (foldl Z.max x rest)
  end.

(** [TodoManager._get_next_id] *)
Definition _get_next_id (ts : list Task) : except Z :=
  match ts with
  | [] => Return 1
  | _ =>
      m <-! py_max (omap (fun task => if id_truthy task then task_id task else None) ts) ;;
      Return (m + 1)
  end.

(** [TodoManager._save_tasks] *)
Definition _save_tasks : M unit :=
  ts <- gets tasks ;;
  TodoStorage.save_tasks ts ;;;
  ret tt.

(** [TodoManager.add_task] *)
Definition add_task (now : datetime) (title description : string)
    (priority : Priority) : M Task :=
  ts <- gets tasks ;;
  next_id <- lift (_get_next_id ts) ;;
  let task := Task_init now title description priority PENDING None None
                (Some next_id) in
  modify (fun w => set_tasks (tasks w ++ [task]) w) ;;;
  _save_tasks ;;;
  ret task.

(** [TodoManager.get_tasks] *)
Definition get_tasks (status_filter : option Status) : M (list Task) :=
  ts <- gets tasks ;;
  match status_filter with
  | None => ret ts
  | Some s => ret (filter (fun task => status task = s) ts)
  end.

(** The first task whose ID equals [id], with its position in the list. *)
Definition find_task (ts : list Task) (id : Z) : option (nat * Task) :=
  list_find (fun task => task_id task = Some id) ts.

(** [TodoManager.get_task_by_id] *)
Definition get_task_by_id (id : Z) : M (option Task) :=
  ts <- gets tasks ;;
  ret (snd <$> find_task ts id).

Definition with_title (x : string) (t : Task) : Task :=
  {| task_id := task_id t; title := x; description := description t;
     priority := priority t; status := status t;
     created_at := created_at t; completed_at := completed_at t |}.

Definition with_description (x : string) (t : Task) : Task :=
  {| task_id := task_id t; title := title t; description := x;
     priority := priority t; status := status t;
     created_at := created_at t; completed_at := completed_at t |}.

Definition with_priority (x : Priority) (t : Task) : Task :=
  {| task_id := task_id t; title := title t; description := description t;
     priority := x; status := status t;
     created_at := created_at t; completed_at := completed_at t |}.

Definition with_status (x : Status) (t : Task) : Task :=
  {| task_id := task_id t; title := title t; description := description t;
     priority := priority t; status := x;
     created_at := created_at t; completed_at := completed_at t |}.

(** [if x is not None: task.field = x] *)
Definition when_given {A} (x : option A) (f : A -> Task -> Task) (t : Task)
  : Task :=
  match x with Some a => f a t | None => t end.

(** The assignments of [update_task] on the task found. *)
Definition apply_update (now : datetime) (title description : option string)
    (priority : option Priority) (status : option Status) (task : Task)
  : Task :=
  let task := when_given title with_title task in
  let task := when_given description with_description task in
  let task := when_given priority with_priority task in
  when_given status
    (fun s task =>
       let task := with_status s task in
       match s with
       | COMPLETED => Task_mark_completed now task
       | IN_PROGRESS => Task_mark_in_progress task
       | PENDING => task
       end)
    task.

(** [TodoManager.update_task]; the task found is changed where it stands
    in the list. *)
Definition update_task (now : datetime) (id : Z)
    (title description : option string) (priority : option Priority)
    (status : option Status) : M bool :=
  ts <- gets tasks ;;
  match find_task ts id with
  | None => ret false
  | Some (i, task) =>
      modify (fun w =>
        set_tasks (<[i := apply_update now title description priority status task]> (tasks w)) w) ;;;
      _save_tasks ;;;
      ret true
  end.

(** [TodoManager.delete_task]; [self.tasks.remove(task)] takes out the
    task found, which is the first one equal to itself. *)
Definition delete_task (id : Z) : M bool :=
  ts <- gets tasks ;;
  match find_task ts id with
  | None => ret false
  | Some (i, task) =>
      modify (fun w => set_tasks (delete i (tasks w)) w) ;;;
      _save_tasks ;;;
      ret true
  end.

(** [TodoManager.mark_completed] *)
Definition mark_completed (now : datetime) (id : Z) : M bool :=
  update_task now id None None None (Some COMPLETED).

(** [TodoManager.__init__], for a file whose records give every attribute a
    value of its annotated type; [None] when a loaded attribute is outside
    it. *)
Definition init (clock : nat -> datetime) (w : World) : option (outcome unit) :=
  match TodoStorage.load_tasks clock w with
  | Ok objs w' =>
      ts ← mapM task_of_obj objs;
      Some (Ok tt (set_tasks (_assign_task_ids ts) w'))
  | Raised e w' => Some (Raised e w')
  end.

End TodoManager.

(** ** Vocabulary of the properties *)

(** The world after [_save_tasks]. *)
Definition saved (w : World) : World :=
  if writable w
  then set_file (Decoded (VList (map to_dict (tasks w)))) (record_save (tasks w) w)
  else print (ErrorSaving OSError) (record_save (tasks w) w).

(** No task of [l] has the ID [id]. *)
Definition id_free (id : Z) (l : list Task) : Prop :=
  Forall (fun t => task_id t <> Some id) l.

(** [m] is the highest ID in the collection. *)
Definition is_max_id (m : Z) (ts : list Task) : Prop :=
  (exists t, t ∈ ts /\ task_id t = Some m)
  /\ forall t n, t ∈ ts -> task_id t = Some n -> n <= m.

(** A sequence of calls of [add_task]; the tasks returned, in call order. *)
Fixpoint add_tasks (calls : list (datetime * string * string * Priority))
  : M (list Task) :=
  match calls with
  | [] => ret []
  | (now, ti, de, pr) :: rest =>
      t <- TodoManager.add_task now ti de pr ;;
      ts <- add_tasks rest ;;
      ret (t :: ts)
  end.

(** Every [Task] instance has a creation time that is not the empty string:
    [__init__] puts the reading of the clock in place of an empty one. *)
Definition has_created_at (t : Task) : Prop := created_at t <> "".

(** The warnings [load_tasks] prints when its body raises [e]. *)
Definition load_warnings (e : exn) : list message :=
  if is_ValueError e || is_KeyError e
  then [ErrorLoading e; StartingEmpty]
  else [UnexpectedErrorLoading e].

(** A task as the data model has it: with an integer ID and with ISO-8601
    timestamps. *)
Definition in_data_model (t : Task) : Prop :=
  is_Some (task_id t)
  /\ is_iso8601 (created_at t) = true
  /\ forall s, completed_at t = Some s -> is_iso8601 s = true.



(** ** Concrete collections and files *)

Definition noon : datetime :=
  {| year := 2025; month := 6; day := 15;
     hour := 12; minute := 0; second := 0; microsecond := 0 |}.

Definition later : datetime :=
  {| year := 2025; month := 6; day := 15;
     hour := 18; minute := 30; second := 5; microsecond := 250 |}.

(** First run: no file yet. *)
Definition fresh : World :=
  {| tasks := []; file := NoFile; writable := true;
     console := []; saves := [] |}.

Definition buy_milk : Task :=
  Task_init noon "Buy milk" "" MEDIUM PENDING None None (Some 1).

Definition call_mum : Task :=
  Task_mark_completed later
    (Task_init noon "Call mum" "on Sunday" HIGH PENDING None None (Some 2)).

Definition two_tasks : World :=
  {| tasks := [buy_milk; call_mum]; file := NoFile; writable := true;
     console := []; saves := [] |}.

(** A file edited by hand, whose only task has the ID 0. *)
Definition zero_id_file : World :=
  {| tasks := [];
     file := Decoded (VList [VDict [("task_id", VInt 0); ("title", VStr "x")]]);
     writable := true; console := []; saves := [] |}.


(** ** Further vocabulary *)

(** Every task has an ID, the IDs are positive and pairwise distinct. *)
Definition valid_ids (ts : list Task) : Prop :=
  Forall (fun t => exists n, task_id t = Some n /\ 0 < n) ts
  /\ NoDup (map task_id ts).

(** The number of tasks of [l] without an ID. *)
Definition count_no_id (l : list Task) : nat :=
  length (filter (fun t => task_id t = None) l).

(** The IDs that are there. *)
Definition present_ids (ts : list Task) : list Z := omap task_id ts.

Definition without_id (t : Task) : Task :=
  {| task_id := None; title := title t; description := description t;
     priority := priority t; status := status t;
     created_at := created_at t; completed_at := completed_at t |}.

(** A collection from a file in which two tasks have no ID. *)
Definition legacy_tasks : list Task :=
  [without_id buy_milk; TodoManager.with_task_id 7 call_mum; without_id call_mum].

(** The two tasks, with a file that cannot be written. *)
Definition read_only : World :=
  {| tasks := [buy_milk; call_mum]; file := NoFile; writable := false;
     console := []; saves := [] |}.

(** The world after [load_tasks] caught [e]. *)
Definition warned (e : exn) (w : World) : World :=
  if is_ValueError e || is_KeyError e
  then print StartingEmpty (print (ErrorLoading e) w)
  else print (UnexpectedErrorLoading e) w.

(** A file with a good record followed by one without title. *)
Definition half_good_file : World :=
  {| tasks := [];
     file := Decoded (VList [to_dict buy_milk; VDict [("task_id", VInt 2)]]);
     writable := true; console := []; saves := [] |}.

(** Every task has a positive ID. *)
Definition positive_ids (ts : list Task) : Prop :=
  Forall (fun t => exists n, task_id t = Some n /\ 0 < n) ts.

(** A completed task has a completion time, a task in progress has none. *)
Definition timestamps_coherent (t : Task) : Prop :=
  (status t = COMPLETED -> is_Some (completed_at t))
  /\ (status t = IN_PROGRESS -> completed_at t = None).

(** * Properties *)

(** ** How the calls run *)

Section Runs.

Import TodoStorage TodoManager.

Lemma save_tasks_run (ts : list Task) (w : World) :
  save_tasks ts w =
    if writable w
    then Ok true (set_file (Decoded (VList (map to_dict ts))) (record_save ts w))
    else Ok false (print (ErrorSaving OSError) (record_save ts w)).
Proof.
  unfold save_tasks, write_json, try_except, bind, modify, gets, lift, ret.
  cbn. destruct (writable w); reflexivity.
Qed.

Lemma _save_tasks_run (w : World) : _save_tasks w = Ok tt (saved w).
Proof.
  unfold _save_tasks, bind, gets, ret, saved. rewrite save_tasks_run.
  destruct (writable w); reflexivity.
Qed.

Lemma saved_tasks (w : World) : tasks (saved w) = tasks w.
Proof. unfold saved. destruct (writable w); reflexivity. Qed.

Lemma saved_saves (w : World) : saves (saved w) = saves w ++ [tasks w].
Proof. unfold saved. destruct (writable w); reflexivity. Qed.

Lemma saved_file (w : World) :
  writable w = true ->
  file (saved w) = Decoded (VList (map to_dict (tasks w))).
Proof. unfold saved. intros ->. reflexivity. Qed.

Lemma update_task_run now id ti de pr st (w : World) :
  update_task now id ti de pr st w =
    match find_task (tasks w) id with
    | None => Ok false w
    | Some (i, task) =>
        Ok true (saved (set_tasks (<[i := apply_update now ti de pr st task]> (tasks w)) w))
    end.
Proof.
  unfold update_task, bind, gets, ret, modify. cbv beta iota.
  destruct (find_task (tasks w) id) as [[i task]|]; [|reflexivity].
  cbv beta iota. rewrite _save_tasks_run. reflexivity.
Qed.

Lemma delete_task_run id (w : World) :
  delete_task id w =
    match find_task (tasks w) id with
    | None => Ok false w
    | Some (i, task) => Ok true (saved (set_tasks (delete i (tasks w)) w))
    end.
Proof.
  unfold delete_task, bind, gets, ret, modify. cbv beta iota.
  destruct (find_task (tasks w) id) as [[i task]|]; [|reflexivity].
  cbv beta iota. rewrite _save_tasks_run. reflexivity.
Qed.

Lemma add_task_run now ti de pr (w : World) :
  add_task now ti de pr w =
    match _get_next_id (tasks w) with
    | Return n =>
        let task := Task_init now ti de pr PENDING None None (Some n) in
        Ok task (saved (set_tasks (tasks w ++ [task]) w))
    | Raise e => Raised e w
    end.
Proof.
  unfold add_task, bind, gets, lift, ret, modify. cbv beta iota.
  destruct (_get_next_id (tasks w)); [|reflexivity].
  cbv beta iota. rewrite _save_tasks_run. reflexivity.
Qed.

Lemma find_task_None (ts : list Task) (id : Z) :
  find_task ts id = None <-> Forall (fun t => task_id t <> Some id) ts.
Proof.
  unfold find_task.
  apply (list_find_None (fun task => task_id task = Some id)).
Qed.

Lemma find_task_Some (ts : list Task) (id : Z) (i : nat) (t : Task) :
  find_task ts id = Some (i, t) <->
  ts !! i = Some t /\ task_id t = Some id
  /\ forall j u, ts !! j = Some u -> (j < i)%nat -> task_id u <> Some id.
Proof.
  unfold find_task.
  apply (list_find_Some (fun task => task_id task = Some id)).
Qed.

(** Changing the task found, without changing its ID, leaves it the task
    found. *)
Lemma find_task_insert (ts : list Task) (id : Z) (i : nat) (t t' : Task) :
  find_task ts id = Some (i, t) ->
  task_id t' = Some id ->
  find_task (<[i := t']> ts) id = Some (i, t').
Proof.
  intros (Hi & Hid & Hfirst)%find_task_Some Hid'.
  apply find_task_Some. split; [|split].
  - apply list_lookup_insert_eq. eapply lookup_lt_Some; eauto.
  - assumption.
  - intros j u Hj Hlt. rewrite list_lookup_insert_ne in Hj by lia.
    eauto.
Qed.

Lemma apply_update_task_id now ti de pr st t :
  task_id (apply_update now ti de pr st t) = task_id t.
Proof. destruct ti, de, pr, st as [[]|]; reflexivity. Qed.

Lemma apply_update_created_at now ti de pr st t :
  created_at (apply_update now ti de pr st t) = created_at t.
Proof. destruct ti, de, pr, st as [[]|]; reflexivity. Qed.

Lemma apply_update_title now ti de pr st t :
  title (apply_update now ti de pr st t) = default (title t) ti.
Proof. destruct ti, de, pr, st as [[]|]; reflexivity. Qed.

Lemma apply_update_description now ti de pr st t :
  description (apply_update now ti de pr st t) = default (description t) de.
Proof. destruct ti, de, pr, st as [[]|]; reflexivity. Qed.

Lemma apply_update_priority now ti de pr st t :
  priority (apply_update now ti de pr st t) = default (priority t) pr.
Proof. destruct ti, de, pr, st as [[]|]; reflexivity. Qed.

Lemma apply_update_status now ti de pr st t :
  status (apply_update now ti de pr st t) = default (status t) st.
Proof. destruct ti, de, pr, st as [[]|]; reflexivity. Qed.

Lemma apply_update_completed_at now ti de pr st t :
  completed_at (apply_update now ti de pr st t) =
    match st with
    | Some COMPLETED => Some (isoformat now)
    | Some IN_PROGRESS => None
    | Some PENDING | None => completed_at t
    end.
Proof. destruct ti, de, pr, st as [[]|]; reflexivity. Qed.

End Runs.

(** ** Looking a task up by its ID *)

Section Lookup.

Import TodoManager.

Lemma find_task_split (id : Z) (l1 l2 : list Task) (t : Task) :
  id_free id l1 -> task_id t = Some id ->
  find_task (l1 ++ t :: l2) id = Some (length l1, t).
Proof.
  intros Hfree Hid. apply find_task_Some. split; [|split].
  - rewrite lookup_app_r by lia. replace (length l1 - length l1)%nat with 0%nat by lia.
    reflexivity.
  - exact Hid.
  - intros j u Hj Hlt. rewrite lookup_app_l in Hj by lia.
    unfold id_free in Hfree. rewrite Forall_lookup in Hfree. eauto.
Qed.

Lemma find_task_Some_split (ts : list Task) (id : Z) (i : nat) (t : Task) :
  find_task ts id = Some (i, t) ->
  exists l1 l2, ts = l1 ++ t :: l2 /\ length l1 = i
                /\ id_free id l1 /\ task_id t = Some id.
Proof.
  intros (Hi & Hid & Hfirst)%find_task_Some.
  exists (take i ts), (drop (S i) ts). split; [|split; [|split]].
  - symmetry. apply take_drop_middle. exact Hi.
  - apply length_take_le. apply lookup_lt_Some in Hi. lia.
  - apply Forall_lookup. intros j u Hj.
    apply lookup_take_Some in Hj as [Hj Hlt]. eauto.
  - exact Hid.
Qed.

Lemma present_split (ts : list Task) (id : Z) :
  (exists t, t ∈ ts /\ task_id t = Some id) ->
  exists l1 t l2, ts = l1 ++ t :: l2 /\ id_free id l1 /\ task_id t = Some id.
Proof.
  intros (t & Hin & Hid).
  destruct (find_task ts id) as [[i u]|] eqn:Hfind.
  - apply find_task_Some_split in Hfind as (l1 & l2 & ? & ? & ? & ?).
    exists l1, u, l2. auto.
  - apply find_task_None in Hfind. rewrite Forall_forall in Hfind.
    exfalso. eapply Hfind; eauto.
Qed.

Lemma insert_middle (l1 l2 : list Task) (t t' : Task) :
  <[length l1 := t']> (l1 ++ t :: l2) = l1 ++ t' :: l2.
Proof.
  rewrite insert_app_r_alt by lia.
  replace (length l1 - length l1)%nat with 0%nat by lia. reflexivity.
Qed.

Lemma delete_middle (l1 l2 : list Task) (t : Task) :
  delete (length l1) (l1 ++ t :: l2) = l1 ++ l2.
Proof.
  induction l1 as [|x l1 IH]; [reflexivity|]. cbn. f_equal. exact IH.
Qed.

End Lookup.

(** ** The manager's operations *)

Section Manager.

Import TodoManager.

(** C10: for an ID that no task of the collection has, [update_task]
    returns false and leaves the world as it was: no field of any task is
    changed, nothing is saved (the record of saves and the file are the
    same), nothing is printed. *)
Theorem update_task_unknown_id now id ti de pr st (w : World) :
  id_free id (tasks w) ->
  update_task now id ti de pr st w = Ok false w.
Proof.
  intros Hfree. rewrite update_task_run.
  apply find_task_None in Hfree. rewrite Hfree. reflexivity.
Qed.

(** C5: for an ID that no task has, [delete_task] returns false and leaves
    the world as it was (same collection, no save); for an ID that is
    present, it takes the first task with that ID out of the collection,
    keeps the others in their order, saves the new collection and returns
    true. *)
Theorem delete_task_spec id (w : World) :
  (id_free id (tasks w) -> delete_task id w = Ok false w)
  /\ ((exists t, t ∈ tasks w /\ task_id t = Some id) ->
      exists l1 t l2 w',
        tasks w = l1 ++ t :: l2 /\ id_free id l1 /\ task_id t = Some id
        /\ delete_task id w = Ok true w'
        /\ tasks w' = l1 ++ l2
        /\ saves w' = saves w ++ [l1 ++ l2]
        /\ (writable w = true ->
            file w' = Decoded (VList (map to_dict (l1 ++ l2))))).
Proof.
  split.
  - intros Hfree. rewrite delete_task_run.
    apply find_task_None in Hfree. rewrite Hfree. reflexivity.
  - intros Hin. apply present_split in Hin as (l1 & t & l2 & Hts & Hfree & Hid).
    exists l1, t, l2.
    eexists. split; [exact Hts|]. split; [exact Hfree|]. split; [exact Hid|].
    rewrite delete_task_run, Hts, (find_task_split id l1 l2 t Hfree Hid).
    rewrite delete_middle.
    split; [reflexivity|].
    rewrite saved_tasks, saved_saves. cbn.
    split; [reflexivity|]. split; [reflexivity|].
    intros Hw. rewrite saved_file by exact Hw. reflexivity.
Qed.

(** C7: when [t] is the first task with the ID [id], [update_task] returns
    true, whatever fields are supplied (also none); the task takes the
    supplied title, description, priority and status and keeps each of
    these that is omitted; its ID and creation time stay, as do all other
    tasks and the order; the collection is then saved. *)
Theorem update_task_frame now id ti de pr st (w : World) l1 t l2 :
  tasks w = l1 ++ t :: l2 -> id_free id l1 -> task_id t = Some id ->
  exists t' w',
    update_task now id ti de pr st w = Ok true w'
    /\ tasks w' = l1 ++ t' :: l2
    /\ title t' = default (title t) ti
    /\ description t' = default (description t) de
    /\ priority t' = default (priority t) pr
    /\ status t' = default (status t) st
    /\ task_id t' = task_id t
    /\ created_at t' = created_at t
    /\ (st = None -> completed_at t' = completed_at t)
    /\ saves w' = saves w ++ [tasks w']
    /\ (writable w = true ->
        file w' = Decoded (VList (map to_dict (tasks w')))).
Proof.
  intros Hts Hfree Hid.
  exists (apply_update now ti de pr st t). eexists.
  rewrite update_task_run, Hts, (find_task_split id l1 l2 t Hfree Hid).
  rewrite insert_middle.
  split; [reflexivity|].
  rewrite saved_tasks, saved_saves. cbn.
  split; [reflexivity|].
  rewrite apply_update_title, apply_update_description, apply_update_priority,
    apply_update_status, apply_update_task_id, apply_update_created_at,
    apply_update_completed_at.
  repeat (split; [reflexivity|]).
  split; [intros ->; reflexivity|].
  split; [reflexivity|].
  intros Hw. rewrite saved_file by exact Hw. reflexivity.
Qed.

(** C2: when [t] is the first task with the ID [id], [update_task] with
    status completed leaves the task with a completion time that is not
    [None]: the reading of the clock; with status in_progress it leaves the
    task in progress and without completion time; with status pending it
    leaves the task pending with the completion time it had. *)
Theorem update_task_status_timestamp now id ti de pr (w : World) l1 t l2 :
  tasks w = l1 ++ t :: l2 -> id_free id l1 -> task_id t = Some id ->
  (exists t' w',
      update_task now id ti de pr (Some COMPLETED) w = Ok true w'
      /\ tasks w' = l1 ++ t' :: l2
      /\ status t' = COMPLETED
      /\ completed_at t' = Some (isoformat now)
      /\ completed_at t' <> None)
  /\ (exists t' w',
      update_task now id ti de pr (Some IN_PROGRESS) w = Ok true w'
      /\ tasks w' = l1 ++ t' :: l2
      /\ status t' = IN_PROGRESS
      /\ completed_at t' = None)
  /\ (exists t' w',
      update_task now id ti de pr (Some PENDING) w = Ok true w'
      /\ tasks w' = l1 ++ t' :: l2
      /\ status t' = PENDING
      /\ completed_at t' = completed_at t).
Proof.
  intros Hts Hfree Hid.
  split; [|split].
  all: eexists (apply_update now ti de pr (Some _) t); eexists.
  all: rewrite update_task_run, Hts, (find_task_split id l1 l2 t Hfree Hid).
  all: rewrite insert_middle.
  all: split; [reflexivity|].
  all: rewrite saved_tasks; cbn [tasks set_tasks].
  all: rewrite apply_update_status, apply_update_completed_at.
  all: repeat split; try reflexivity; discriminate.
Qed.

End Manager.

(** ** Filtering by status *)

Section Filter.

Import TodoManager.

Lemma sublist_into_filter (s : Status) (r ts : list Task) :
  r `sublist_of` ts -> Forall (fun t => status t = s) r ->
  r `sublist_of` filter (fun t => status t = s) ts.
Proof.
  induction 1 as [|x l1 l2 Hsub IH|x l1 l2 Hsub IH]; intros Hall.
  - constructor.
  - apply Forall_cons in Hall as [Hx Hall].
    rewrite filter_cons_True by exact Hx. apply sublist_skip. auto.
  - rewrite filter_cons. destruct (decide (status x = s)).
    + apply sublist_cons. auto.
    + auto.
Qed.

(** C6: [get_tasks] without a filter returns all the tasks in their order;
    with the filter [s] it returns a subsequence of the collection (so in
    the original relative order) whose tasks all have status [s], and which
    holds every subsequence of the collection whose tasks all have status
    [s]: it is exactly the tasks of status [s]. Either way the world is left
    as it was: nothing is saved. *)
Theorem get_tasks_spec (w : World) :
  get_tasks None w = Ok (tasks w) w
  /\ forall s : Status,
      exists r,
        get_tasks (Some s) w = Ok r w
        /\ r `sublist_of` tasks w
        /\ Forall (fun t => status t = s) r
        /\ (forall t, t ∈ r <-> t ∈ tasks w /\ status t = s)
        /\ (forall r', r' `sublist_of` tasks w ->
                       Forall (fun t => status t = s) r' ->
                       r' `sublist_of` r).
Proof.
  split; [reflexivity|]. intros s.
  exists (filter (fun t => status t = s) (tasks w)).
  split; [reflexivity|]. split; [apply sublist_filter|].
  split.
  { apply Forall_forall. intros t Ht. apply list_elem_of_filter in Ht. tauto. }
  split.
  { intros t. rewrite list_elem_of_filter. tauto. }
  intros r' Hsub Hall. apply sublist_into_filter; assumption.
Qed.

End Filter.

(** ** The store *)

Section Store.

Import TodoStorage.

Lemma isoformat_nonempty (d : datetime) : isoformat d <> "".
Proof. unfold isoformat. cbv [zfill String.append]. discriminate. Qed.


Lemma task_of_obj_of_task (t : Task) : task_of_obj (obj_of_task t) = Some t.
Proof. destruct t as [[i|] ti de pr st cr [co|]]; reflexivity. Qed.

Lemma tasks_of_objs_of_tasks (ts : list Task) :
  mapM task_of_obj (map obj_of_task ts) = Some ts.
Proof.
  apply mapM_Some. induction ts as [|t ts IH]; cbn; constructor.
  - apply task_of_obj_of_task.
  - exact IH.
Qed.

Lemma from_dict_to_dict now (t : Task) :
  has_created_at t -> from_dict now (to_dict t) = Return (obj_of_task t).
Proof.
  unfold has_created_at. intros Hcr%String.eqb_neq.
  unfold from_dict, to_dict, obj_of_task, TaskObj_init, or_. cbn.
  destruct (priority t), (status t); cbn; rewrite Hcr; reflexivity.
Qed.

Lemma from_dicts_to_dicts clock (ts : list Task) : forall i,
  Forall has_created_at ts ->
  from_dicts clock i (map to_dict ts) = Return (map obj_of_task ts).
Proof.
  induction ts as [|t ts IH]; intros i Hall; [reflexivity|].
  apply Forall_cons in Hall as [Ht Hall]. cbn [map from_dicts].
  rewrite from_dict_to_dict by exact Ht. cbn [ebind].
  rewrite IH by exact Hall. reflexivity.
Qed.

Lemma load_tasks_of_records clock (ts : list Task) (w : World) :
  Forall has_created_at ts ->
  file w = Decoded (VList (map to_dict ts)) ->
  load_tasks clock w = Ok (map obj_of_task ts) w.
Proof.
  intros Hall Hfile.
  unfold load_tasks, try_except, load_tasks_body, bind, gets, lift.
  rewrite Hfile. cbn [iterate ebind].
  rewrite from_dicts_to_dicts by exact Hall. reflexivity.
Qed.

(** C4: when [save_tasks] has written a collection (it returned true),
    [load_tasks] returns, without a warning and in the same order, the
    instances with the very attributes of the tasks saved (ID, title,
    description, priority, status, creation time, completion time or
    [None]), whatever the clock reads; from these instances the tasks
    saved are recovered. This holds for the empty collection, for one task,
    and for tasks without completion time. *)
Theorem save_load_roundtrip clock (ts : list Task) (w w' : World) :
  Forall has_created_at ts ->
  save_tasks ts w = Ok true w' ->
  load_tasks clock w' = Ok (map obj_of_task ts) w'
  /\ mapM task_of_obj (map obj_of_task ts) = Some ts.
Proof.
  intros Hall Hsave. split; [|apply tasks_of_objs_of_tasks].
  rewrite save_tasks_run in Hsave.
  destruct (writable w); [|discriminate].
  injection Hsave as <-.
  apply load_tasks_of_records; [exact Hall|reflexivity].
Qed.

Lemma load_tasks_body_fails clock (w : World) (e : exn) :
  file w = Fails e -> load_tasks_body clock w = Raised e w.
Proof.
  intros Hfile. unfold load_tasks_body, bind, gets, lift. rewrite Hfile.
  reflexivity.
Qed.

(** A record that is not a dict, a record without title, a priority or a
    status outside the three tokens: [from_dict] raises. *)
Lemma from_dict_not_a_dict now (data : val) :
  (forall items, data <> VDict items) ->
  from_dict now data = Raise AttributeError.
Proof.
  intros Hnot. destruct data; try reflexivity. exfalso. eapply Hnot. reflexivity.
Qed.

Lemma from_dict_no_title now (items : list (string * val)) :
  items_get "title" items = None ->
  from_dict now (VDict items) = Raise (KeyError "title").
Proof. intros Hnone. unfold from_dict. cbn. rewrite Hnone. reflexivity. Qed.

Lemma Priority_of_unknown (v : val) :
  (forall p, v <> VStr (Priority_value p)) -> Priority_of v = Raise ValueError.
Proof.
  intros Hnot. destruct v as [| | | |s| |]; try reflexivity. cbn.
  destruct (String.eqb s "low") eqn:E1;
    [apply String.eqb_eq in E1; subst; destruct (Hnot LOW); reflexivity|].
  destruct (String.eqb s "medium") eqn:E2;
    [apply String.eqb_eq in E2; subst; destruct (Hnot MEDIUM); reflexivity|].
  destruct (String.eqb s "high") eqn:E3;
    [apply String.eqb_eq in E3; subst; destruct (Hnot HIGH); reflexivity|].
  reflexivity.
Qed.

Lemma Status_of_unknown (v : val) :
  (forall s, v <> VStr (Status_value s)) -> Status_of v = Raise ValueError.
Proof.
  intros Hnot. destruct v as [| | | |s| |]; try reflexivity. cbn.
  destruct (String.eqb s "pending") eqn:E1;
    [apply String.eqb_eq in E1; subst; destruct (Hnot PENDING); reflexivity|].
  destruct (String.eqb s "in_progress") eqn:E2;
    [apply String.eqb_eq in E2; subst; destruct (Hnot IN_PROGRESS); reflexivity|].
  destruct (String.eqb s "completed") eqn:E3;
    [apply String.eqb_eq in E3; subst; destruct (Hnot COMPLETED); reflexivity|].
  reflexivity.
Qed.


End Store.

(** ** The persisted records *)

Section Records.

Import TodoStorage TodoManager.

Lemma is_digit_digit (n : N) : is_digit (digit n) = true.
Proof.
  unfold is_digit, digit.
  assert (Hlt : (n mod 10 < 10)%N) by (apply N.mod_lt; discriminate).
  revert Hlt. generalize (n mod 10)%N. intros r Hlt.
  rewrite N_ascii_embedding by lia.
  apply andb_true_intro. split; apply N.leb_le; lia.
Qed.

(** What [isoformat] returns is ISO-8601 text. *)
Lemma isoformat_is_iso8601 (d : datetime) : is_iso8601 (isoformat d) = true.
Proof.
  unfold is_iso8601, isoformat.
  destruct (microsecond d =? 0)%N; cbv [zfill String.append].
  - apply orb_true_intro. left.
    cbn [shape_match Ascii.eqb Bool.eqb]. rewrite !is_digit_digit. reflexivity.
  - apply orb_true_intro. right.
    cbn [shape_match Ascii.eqb Bool.eqb]. rewrite !is_digit_digit. reflexivity.
Qed.



End Records.

(** ** Assigning IDs *)

Section NextId.

Import TodoManager.

Lemma foldl_max_ge (l : list Z) : forall x n,
  n ∈ x :: l -> n <= foldl Z.max x l.
Proof.
  induction l as [|y l IH]; intros x n Hin; cbn.
  - apply list_elem_of_singleton in Hin. lia.
  - apply elem_of_cons in Hin as [->|Hin].
    + etransitivity; [|apply IH; left]. lia.
    + apply elem_of_cons in Hin as [->|Hin].
      * etransitivity; [|apply IH; left]. lia.
      * apply IH. right. exact Hin.
Qed.

Lemma foldl_max_in (l : list Z) : forall x, foldl Z.max x l ∈ x :: l.
Proof.
  induction l as [|y l IH]; intros x; cbn; [left|].
  specialize (IH (Z.max x y)).
  apply elem_of_cons in IH as [->|IH].
  - destruct (Z.max_spec x y) as [[_ ->]|[_ ->]]; [right; left|left].
  - right. right. exact IH.
Qed.

Lemma py_max_spec (l : list Z) (m : Z) :
  m ∈ l -> (forall n, n ∈ l -> n <= m) -> py_max l = Return m.
Proof.
  destruct l as [|x l]; intros Hin Hub; [inversion Hin|].
  cbn. f_equal. apply Z.le_antisymm.
  - apply Hub. apply foldl_max_in.
  - apply foldl_max_ge. exact Hin.
Qed.

Lemma _get_next_id_nonempty (ts : list Task) :
  ts <> [] ->
  _get_next_id ts =
    (m <-! py_max (omap (fun task => if id_truthy task then task_id task else None) ts) ;;
     Return (m + 1)).
Proof. destruct ts; [contradiction|reflexivity]. Qed.

(** For every collection whose highest ID is [m], not 0, the next ID is
    [m + 1]. *)
Lemma _get_next_id_max (ts : list Task) (m : Z) :
  is_max_id m ts -> m <> 0 -> _get_next_id ts = Return (m + 1).
Proof.
  intros [(t & Hin & Hid) Hub] Hm.
  rewrite _get_next_id_nonempty by (intros ->; inversion Hin).
  rewrite (py_max_spec _ m); [reflexivity| |].
  - apply list_elem_of_omap. exists t. split; [exact Hin|].
    unfold id_truthy. rewrite Hid.
    destruct (m =? 0) eqn:E; [apply Z.eqb_eq in E; contradiction|reflexivity].
  - intros n (u & Hu & Hn)%list_elem_of_omap.
    destruct (id_truthy u); [|discriminate]. eauto.
Qed.

(** After loading a collection whose highest ID is 5, whatever the order
    and the gaps, the next task added has ID 6. *)
Lemma add_task_after_max_5 now ti de pr (w : World) :
  is_max_id 5 (tasks w) ->
  exists t w', add_task now ti de pr w = Ok t w' /\ task_id t = Some 6.
Proof.
  intros Hmax. rewrite add_task_run.
  rewrite (_get_next_id_max _ 5 Hmax) by discriminate.
  eexists _, _. split; reflexivity.
Qed.

Lemma is_max_id_snoc (ts : list Task) (t : Task) (k : Z) :
  task_id t = Some k ->
  (forall u n, u ∈ ts -> task_id u = Some n -> n <= k) ->
  is_max_id k (ts ++ [t]).
Proof.
  intros Hid Hub. split.
  - exists t. split; [|exact Hid]. apply elem_of_app. right. left.
  - intros u n [Hu|Hu%list_elem_of_singleton]%elem_of_app Hn.
    + eauto.
    + subst u. rewrite Hid in Hn. injection Hn as <-. lia.
Qed.

Lemma add_tasks_ids calls : forall (w : World) (k : Z),
  0 < k -> _get_next_id (tasks w) = Return k ->
  (forall u n, u ∈ tasks w -> task_id u = Some n -> n < k) ->
  exists ts w',
    add_tasks calls w = Ok ts w'
    /\ map task_id ts = map Some (seqZ k (Z.of_nat (length calls))).
Proof.
  induction calls as [|[[[now ti] de] pr] calls IH]; intros w k Hk Hnext Hub.
  - eexists _, _. split; reflexivity.
  - cbn [add_tasks]. unfold bind at 1. rewrite add_task_run, Hnext.
    cbv beta iota zeta.
    set (t := Task_init now ti de pr PENDING None None (Some k)).
    set (w1 := saved (set_tasks (tasks w ++ [t]) w)).
    assert (Htasks : tasks w1 = tasks w ++ [t])
      by (unfold w1; rewrite saved_tasks; reflexivity).
    destruct (IH w1 (k + 1)) as (ts & w' & Hrun & Hids).
    + lia.
    + rewrite Htasks.
      apply _get_next_id_max; [|lia].
      apply is_max_id_snoc; [reflexivity|].
      intros u n Hu Hn. specialize (Hub u n Hu Hn). lia.
    + rewrite Htasks.
      intros u n [Hu|Hu%list_elem_of_singleton]%elem_of_app Hn.
      * specialize (Hub u n Hu Hn). lia.
      * subst u. cbn in Hn. injection Hn as <-. lia.
    + exists (t :: ts), w'. unfold bind. rewrite Hrun. split; [reflexivity|].
      cbn [map length]. rewrite Hids.
      rewrite Nat2Z.inj_succ, (seqZ_cons k) by lia. cbn [map].
      do 3 f_equal; lia.
Qed.

(** Starting from the empty collection, the tasks added by N calls of
    [add_task] have the IDs 1, ..., N, in call order. *)
Lemma add_tasks_from_empty calls (w : World) :
  tasks w = [] ->
  exists ts w',
    add_tasks calls w = Ok ts w'
    /\ map task_id ts = map Some (seqZ 1 (Z.of_nat (length calls))).
Proof.
  intros Hempty. apply add_tasks_ids.
  - lia.
  - rewrite Hempty. reflexivity.
  - rewrite Hempty. intros u n Hu. inversion Hu.
Qed.


End NextId.

(** ** What the manager keeps true of its tasks *)

Section Invariants.

Import TodoStorage TodoManager.

(** Every instance that [from_dict] builds has a creation time that is
    true: the one of the record, or else the reading of the clock. *)
Lemma from_dict_created_at now (data : val) (o : TaskObj) :
  from_dict now data = Return o -> truthy (obj_created_at o) = true.
Proof.
  unfold from_dict. intros H.
  repeat match type of H with
         | ebind ?m _ = _ => destruct m; cbn [ebind] in H; [|discriminate]
         end.
  injection H as <-. cbn [TaskObj_init obj_created_at]. unfold or_.
  match goal with |- context [if truthy ?v then _ else _] =>
    destruct (truthy v) eqn:E; [exact E|]
  end.
  cbn. pose proof (isoformat_nonempty now) as Hne.
  apply String.eqb_neq in Hne. rewrite Hne. reflexivity.
Qed.

Lemma task_of_obj_has_created_at (o : TaskObj) (t : Task) :
  truthy (obj_created_at o) = true -> task_of_obj o = Some t ->
  has_created_at t.
Proof.
  unfold task_of_obj, has_created_at. intros Htrue Ht.
  destruct (int_of_val (obj_task_id o)); [|discriminate].
  destruct (str_of_val (obj_title o)); [|discriminate].
  destruct (str_of_val (obj_description o)); [|discriminate].
  destruct (obj_created_at o) as [| | | |c| |]; try discriminate.
  destruct (optstr_of_val (obj_completed_at o)); [|discriminate].
  cbn in Ht. injection Ht as <-. cbn in *.
  destruct (String.eqb c "") eqn:E; [discriminate|].
  apply String.eqb_neq. exact E.
Qed.

(** A property of tasks that holds of new tasks, and still holds of a task
    after [update_task] changed it, holds of all tasks after each call. *)
Lemma add_task_keeps (P : Task -> Prop) now ti de pr (w w' : World) t :
  (forall n, P (Task_init now ti de pr PENDING None None (Some n))) ->
  Forall P (tasks w) ->
  add_task now ti de pr w = Ok t w' ->
  Forall P (tasks w') /\ P t.
Proof.
  intros Hnew Hall. rewrite add_task_run.
  destruct (_get_next_id (tasks w)) as [n|]; [|discriminate].
  intros [= <- <-]. rewrite saved_tasks. cbn [tasks set_tasks].
  split; [|apply Hnew]. apply Forall_app. split; [exact Hall|].
  constructor; [apply Hnew|constructor].
Qed.

Lemma update_task_keeps (P : Task -> Prop) now id ti de pr st (w w' : World) b :
  (forall t, P t -> P (apply_update now ti de pr st t)) ->
  Forall P (tasks w) ->
  update_task now id ti de pr st w = Ok b w' ->
  Forall P (tasks w').
Proof.
  intros Hupd Hall. rewrite update_task_run.
  destruct (find_task (tasks w) id) as [[i t]|] eqn:Hfind.
  - intros [= _ <-]. rewrite saved_tasks. cbn [tasks set_tasks].
    apply Forall_insert; [exact Hall|]. apply Hupd.
    apply find_task_Some in Hfind as [Hi _].
    eapply Forall_lookup_1; eauto.
  - intros [= _ <-]. exact Hall.
Qed.

Lemma delete_task_keeps (P : Task -> Prop) id (w w' : World) b :
  Forall P (tasks w) ->
  delete_task id w = Ok b w' ->
  Forall P (tasks w').
Proof.
  intros Hall. rewrite delete_task_run.
  destruct (find_task (tasks w) id) as [[i t]|].
  - intros [= _ <-]. rewrite saved_tasks. cbn [tasks set_tasks].
    apply Forall_delete. exact Hall.
  - intros [= _ <-]. exact Hall.
Qed.


Lemma apply_update_in_data_model now ti de pr st t :
  in_data_model t -> in_data_model (apply_update now ti de pr st t).
Proof.
  intros (Hid & Hcr & Hco). unfold in_data_model.
  rewrite apply_update_task_id, apply_update_created_at,
    apply_update_completed_at.
  split; [exact Hid|]. split; [exact Hcr|].
  destruct st as [[]|]; intros s Hs; try discriminate; auto.
  injection Hs as <-. apply isoformat_is_iso8601.
Qed.

(** The tasks that [add_task] creates are tasks of the data model. *)
Lemma Task_init_in_data_model now ti de pr n :
  in_data_model (Task_init now ti de pr PENDING None None (Some n)).
Proof.
  split; [eexists; reflexivity|]. split.
  - apply isoformat_is_iso8601.
  - intros s Hs. discriminate.
Qed.

(** After [_assign_task_ids] every task has an ID. *)
Lemma fill_ids_all (ts : list Task) : forall m,
  Forall (fun t => is_Some (task_id t)) (fill_ids m ts).
Proof.
  induction ts as [|t ts IH]; intros m; cbn; [constructor|].
  destruct (task_id t) as [n|] eqn:Hn; constructor; try apply IH.
  - rewrite Hn. eexists; reflexivity.
  - eexists; reflexivity.
Qed.


(** A manager started on a file that [save_tasks] wrote holds the tasks
    saved, once those without ID have got one. *)
Lemma init_after_save clock (ts : list Task) (w w' : World) :
  Forall has_created_at ts ->
  save_tasks ts w = Ok true w' ->
  init clock w' = Some (Ok tt (set_tasks (_assign_task_ids ts) w')).
Proof.
  intros Hall Hsave. unfold init.
  rewrite save_tasks_run in Hsave.
  destruct (writable w); [|discriminate]. injection Hsave as <-.
  rewrite (load_tasks_of_records clock ts) by (auto; reflexivity).
  rewrite tasks_of_objs_of_tasks. reflexivity.
Qed.

End Invariants.

(** ** Concrete runs *)

Section Runs_on_examples.

Import TodoStorage TodoManager.

Example isoformat_noon : isoformat noon = "2025-06-15T12:00:00".
Proof. reflexivity. Qed.

Example isoformat_later : isoformat later = "2025-06-15T18:30:05.000250".
Proof. reflexivity. Qed.

Example load_no_file :
  load_tasks (fun _ => noon) fresh = Ok [] fresh.
Proof. reflexivity. Qed.

Example load_missing_title :
  load_tasks (fun _ => noon)
    (set_file (Decoded (VList [VDict [("task_id", VInt 1)]])) fresh)
  = Ok [] (print StartingEmpty (print (ErrorLoading (KeyError "title"))
             (set_file (Decoded (VList [VDict [("task_id", VInt 1)]])) fresh))).
Proof. reflexivity. Qed.

Example load_unknown_priority :
  load_tasks (fun _ => noon)
    (set_file (Decoded (VList [VDict [("title", VStr "x"); ("priority", VStr "urgent")]])) fresh)
  = Ok [] (print StartingEmpty (print (ErrorLoading ValueError)
             (set_file (Decoded (VList [VDict [("title", VStr "x"); ("priority", VStr "urgent")]])) fresh))).
Proof. reflexivity. Qed.

Example load_not_a_sequence :
  load_tasks (fun _ => noon) (set_file (Decoded (VInt 3)) fresh)
  = Ok [] (print (UnexpectedErrorLoading TypeError)
             (set_file (Decoded (VInt 3)) fresh)).
Proof. reflexivity. Qed.

Example load_record_not_a_dict :
  load_tasks (fun _ => noon) (set_file (Decoded (VList [VStr "x"])) fresh)
  = Ok [] (print (UnexpectedErrorLoading AttributeError)
             (set_file (Decoded (VList [VStr "x"])) fresh)).
Proof. reflexivity. Qed.

(** An empty dict in place of the sequence has no keys to go through: the
    empty list, without a warning. *)
Example load_empty_dict :
  load_tasks (fun _ => noon) (set_file (Decoded (VDict [])) fresh)
  = Ok [] (set_file (Decoded (VDict [])) fresh).
Proof. reflexivity. Qed.

(** A title that is not text is not checked: the instance is built with
    it, and the missing attributes get their defaults. *)
Example load_title_not_text :
  load_tasks (fun _ => noon)
    (set_file (Decoded (VList [VDict [("title", VInt 5)]])) fresh)
  = Ok [ {| obj_task_id := VNone; obj_title := VInt 5;
            obj_description := VStr ""; obj_priority := MEDIUM;
            obj_status := PENDING;
            obj_created_at := VStr "2025-06-15T12:00:00";
            obj_completed_at := VNone |} ]
       (set_file (Decoded (VList [VDict [("title", VInt 5)]])) fresh).
Proof. reflexivity. Qed.

Example load_unreadable :
  load_tasks (fun _ => noon) (set_file (Fails OSError) fresh)
  = Ok [] (print (UnexpectedErrorLoading OSError)
             (set_file (Fails OSError) fresh)).
Proof. reflexivity. Qed.

(** The scenario of the specification: add, complete, delete. *)
Example scenario :
  exists t w1 w2 t' w3,
    add_task noon "Buy milk" "" MEDIUM fresh = Ok t w1
    /\ task_id t = Some 1 /\ status t = PENDING /\ priority t = MEDIUM
    /\ mark_completed later 1 w1 = Ok true w2
    /\ get_task_by_id 1 w2 = Ok (Some t') w2
    /\ status t' = COMPLETED /\ completed_at t' = Some (isoformat later)
    /\ delete_task 1 w2 = Ok true w3
    /\ get_task_by_id 1 w3 = Ok None w3.
Proof.
  do 5 eexists.
  split; [vm_compute; reflexivity|]. do 3 (split; [reflexivity|]).
  split; [vm_compute; reflexivity|]. split; [vm_compute; reflexivity|].
  do 2 (split; [reflexivity|]).
  split; vm_compute; reflexivity.
Qed.

(** A collection whose highest ID is 0 and that holds a negative ID: the
    next ID is not 1. *)
Example _get_next_id_zero_and_negative :
  _get_next_id [with_task_id 0 buy_milk; with_task_id (-3) buy_milk]
  = Return (-2).
Proof. reflexivity. Qed.

End Runs_on_examples.

(** ** Checks on the concrete collections *)

Section Checks.

Import TodoStorage TodoManager.

(** C1: a collection whose only task carries the ID 0, as loaded from a
    file edited by hand. The highest ID present is 0, so the next ID should
    be 1, and [_assign_task_ids] does count from this 0; but [_get_next_id]
    skips the ID 0 as if it were missing, takes the maximum of nothing, and
    [add_task] raises [ValueError] instead of adding the task with ID 1. *)
Theorem add_task_highest_id_zero :
  exists t w1,
    init (fun _ => noon) zero_id_file = Some (Ok tt w1)
    /\ tasks w1 = [t] /\ task_id t = Some 0
    /\ is_max_id 0 (tasks w1)
    /\ highest_id 0 (tasks w1) + 1 = 1
    /\ add_task later "y" "" MEDIUM w1 = Raised ValueError w1.
Proof.
  eexists _, _. split; [vm_compute; reflexivity|].
  split; [reflexivity|]. split; [reflexivity|].
  split; [|split; reflexivity].
  split.
  - eexists. split; [left|reflexivity].
  - intros t n Ht%list_elem_of_singleton Hn. subst t.
    injection Hn as <-. lia.
Qed.

(** C3, as stated, fails: [add_task] with the empty title returns a new
    task and the collection grows. *)
Lemma add_task_empty_title_creates :
  exists t w',
    add_task noon "" "" MEDIUM fresh = Ok t w'
    /\ title t = ""
    /\ tasks w' = [t]
    /\ tasks w' <> tasks fresh
    /\ saves w' = [[t]].
Proof.
  eexists _, _. split; [vm_compute; reflexivity|].
  do 2 (split; [reflexivity|]). split; [discriminate|reflexivity].
Qed.

(** C3, amended: [add_task] does not reject the empty title. Whenever the
    next ID [n] can be computed, it creates the pending task with the ID
    [n] and the empty title, appends it to the collection, saves the
    collection and returns the task. *)
Theorem add_task_empty_title now de pr (w : World) (n : Z) :
  _get_next_id (tasks w) = Return n ->
  exists t w',
    add_task now "" de pr w = Ok t w'
    /\ title t = "" /\ task_id t = Some n /\ status t = PENDING
    /\ description t = de /\ priority t = pr
    /\ tasks w' = tasks w ++ [t]
    /\ saves w' = saves w ++ [tasks w'].
Proof.
  intros Hnext. rewrite add_task_run, Hnext. eexists _, _.
  split; [reflexivity|]. rewrite saved_tasks, saved_saves.
  repeat split.
Qed.

Lemma add_task_empty_title_witness :
  _get_next_id (tasks two_tasks) = Return 3
  /\ exists t w',
      add_task later "" "" LOW two_tasks = Ok t w'
      /\ title t = "" /\ task_id t = Some 3 /\ status t = PENDING
      /\ description t = "" /\ priority t = LOW
      /\ tasks w' = tasks two_tasks ++ [t]
      /\ saves w' = saves two_tasks ++ [tasks w'].
Proof.
  split; [reflexivity|].
  apply (add_task_empty_title later "" LOW two_tasks 3). reflexivity.
Defined.


Lemma two_tasks_in_data_model : Forall in_data_model (tasks two_tasks).
Proof.
  repeat constructor; try (eexists; reflexivity).
  all: try (intros s Hs; try discriminate; injection Hs as <-; reflexivity).
Qed.


Lemma buy_milk_before_call_mum :
  tasks two_tasks = [buy_milk] ++ call_mum :: []
  /\ id_free 2 [buy_milk] /\ task_id call_mum = Some 2.
Proof.
  split; [reflexivity|]. split; [|reflexivity].
  constructor; [discriminate|constructor].
Defined.

Lemma update_task_unknown_id_witness :
  id_free 7 (tasks two_tasks)
  /\ update_task later 7 (Some "t") None (Some LOW) (Some COMPLETED) two_tasks
     = Ok false two_tasks.
Proof.
  assert (H : id_free 7 (tasks two_tasks))
    by (repeat constructor; discriminate).
  split; [exact H|].
  exact (update_task_unknown_id later 7 (Some "t") None (Some LOW)
           (Some COMPLETED) two_tasks H).
Defined.

Lemma delete_task_spec_witness :
  (id_free 7 (tasks two_tasks) /\ delete_task 7 two_tasks = Ok false two_tasks)
  /\ ((exists t, t ∈ tasks two_tasks /\ task_id t = Some 2)
      /\ exists l1 t l2 w',
          tasks two_tasks = l1 ++ t :: l2 /\ id_free 2 l1
          /\ task_id t = Some 2
          /\ delete_task 2 two_tasks = Ok true w'
          /\ tasks w' = l1 ++ l2
          /\ saves w' = saves two_tasks ++ [l1 ++ l2]
          /\ (writable two_tasks = true ->
              file w' = Decoded (VList (map to_dict (l1 ++ l2))))).
Proof.
  assert (H7 : id_free 7 (tasks two_tasks))
    by (repeat constructor; discriminate).
  assert (H2 : exists t, t ∈ tasks two_tasks /\ task_id t = Some 2)
    by (exists call_mum; split; [right; left|reflexivity]).
  split.
  - split; [exact H7|]. exact (proj1 (delete_task_spec 7 two_tasks) H7).
  - split; [exact H2|]. exact (proj2 (delete_task_spec 2 two_tasks) H2).
Defined.

Lemma update_task_frame_witness :
  exists t' w',
    update_task later 2 (Some "Call dad") None None None two_tasks = Ok true w'
    /\ tasks w' = [buy_milk] ++ t' :: []
    /\ title t' = "Call dad"
    /\ description t' = description call_mum
    /\ priority t' = priority call_mum
    /\ status t' = status call_mum
    /\ task_id t' = task_id call_mum
    /\ created_at t' = created_at call_mum
    /\ (@None Status = None -> completed_at t' = completed_at call_mum)
    /\ saves w' = saves two_tasks ++ [tasks w']
    /\ (writable two_tasks = true ->
        file w' = Decoded (VList (map to_dict (tasks w')))).
Proof.
  destruct buy_milk_before_call_mum as (Hts & Hfree & Hid).
  exact (update_task_frame later 2 (Some "Call dad") None None None
           two_tasks [buy_milk] call_mum [] Hts Hfree Hid).
Defined.

Lemma update_task_status_timestamp_witness :
  (exists t' w',
      update_task later 1 None None None (Some COMPLETED) two_tasks = Ok true w'
      /\ tasks w' = [] ++ t' :: [call_mum]
      /\ status t' = COMPLETED
      /\ completed_at t' = Some (isoformat later)
      /\ completed_at t' <> None)
  /\ (exists t' w',
      update_task later 1 None None None (Some IN_PROGRESS) two_tasks = Ok true w'
      /\ tasks w' = [] ++ t' :: [call_mum]
      /\ status t' = IN_PROGRESS
      /\ completed_at t' = None)
  /\ (exists t' w',
      update_task later 1 None None None (Some PENDING) two_tasks = Ok true w'
      /\ tasks w' = [] ++ t' :: [call_mum]
      /\ status t' = PENDING
      /\ completed_at t' = completed_at buy_milk).
Proof.
  apply (update_task_status_timestamp later 1 None None None two_tasks
           [] buy_milk [call_mum]).
  - reflexivity.
  - constructor.
  - reflexivity.
Defined.

Lemma get_tasks_spec_witness :
  get_tasks None two_tasks = Ok (tasks two_tasks) two_tasks
  /\ exists r,
      get_tasks (Some COMPLETED) two_tasks = Ok r two_tasks
      /\ r `sublist_of` tasks two_tasks
      /\ Forall (fun t => status t = COMPLETED) r
      /\ (forall t, t ∈ r <-> t ∈ tasks two_tasks /\ status t = COMPLETED)
      /\ (forall r', r' `sublist_of` tasks two_tasks ->
                     Forall (fun t => status t = COMPLETED) r' ->
                     r' `sublist_of` r).
Proof.
  destruct (get_tasks_spec two_tasks) as [Hall Hfilter].
  split; [exact Hall|]. exact (Hfilter COMPLETED).
Defined.

Lemma save_load_roundtrip_witness :
  Forall has_created_at (tasks two_tasks)
  /\ save_tasks (tasks two_tasks) two_tasks = Ok true (saved two_tasks)
  /\ load_tasks (fun _ => later) (saved two_tasks)
     = Ok (map obj_of_task (tasks two_tasks)) (saved two_tasks)
  /\ mapM task_of_obj (map obj_of_task (tasks two_tasks))
     = Some (tasks two_tasks).
Proof.
  assert (H : Forall has_created_at (tasks two_tasks))
    by (repeat constructor; discriminate).
  split; [exact H|]. split; [reflexivity|].
  exact (save_load_roundtrip (fun _ => later) (tasks two_tasks) two_tasks
           (saved two_tasks) H eq_refl).
Defined.


End Checks.

(** * Further properties *)

(** ** Backfilling IDs *)

Section Backfill.

Import TodoManager.

Lemma highest_id_ge (ts : list Task) : forall m, m <= highest_id m ts.
Proof.
  induction ts as [|t ts IH]; intros m; cbn; [lia|].
  destruct (task_id t) as [n|]; [|apply IH].
  etransitivity; [|apply IH]. lia.
Qed.

Lemma highest_id_bound (ts : list Task) : forall m n,
  n ∈ present_ids ts -> n <= highest_id m ts.
Proof.
  unfold present_ids.
  induction ts as [|t ts IH]; intros m n Hn; cbn in *; [inversion Hn|].
  destruct (task_id t) as [k|].
  - apply elem_of_cons in Hn as [->|Hn]; [|apply IH; exact Hn].
    etransitivity; [|apply highest_id_ge]. lia.
  - apply IH. exact Hn.
Qed.

Lemma highest_id_attained (ts : list Task) : forall m,
  highest_id m ts = m \/ highest_id m ts ∈ present_ids ts.
Proof.
  unfold present_ids.
  induction ts as [|t ts IH]; intros m; cbn; [left; reflexivity|].
  destruct (task_id t) as [k|]; [|apply IH].
  destruct (IH (Z.max m k)) as [->|Hin]; [|right; right; exact Hin].
  destruct (Z.max_spec m k) as [[_ ->]|[_ ->]]; [right; left|left; reflexivity].
Qed.

Lemma length_fill_ids (ts : list Task) : forall m,
  length (fill_ids m ts) = length ts.
Proof.
  induction ts as [|t ts IH]; intros m; cbn; [reflexivity|].
  destruct (task_id t); cbn; rewrite IH; reflexivity.
Qed.

Lemma count_no_id_cons (t : Task) (l : list Task) :
  count_no_id (t :: l) =
    match task_id t with
    | None => S (count_no_id l)
    | Some _ => count_no_id l
    end.
Proof.
  unfold count_no_id. rewrite filter_cons.
  destruct (task_id t) as [n|]; cbn.
  - destruct (decide (Some n = None)) as [E|_]; [discriminate|reflexivity].
  - destruct (decide (@None Z = None)) as [_|E]; [reflexivity|contradiction].
Qed.

Lemma fill_ids_lookup (l1 l2 : list Task) (t : Task) : forall m,
  fill_ids m (l1 ++ t :: l2) !! length l1 =
    Some match task_id t with
         | Some _ => t
         | None => with_task_id (m + 1 + Z.of_nat (count_no_id l1)) t
         end.
Proof.
  induction l1 as [|x l1 IH]; intros m.
  - cbn. destruct (task_id t); cbn; [reflexivity|].
    do 2 f_equal. unfold count_no_id. cbn. lia.
  - cbn [app fill_ids length]. rewrite count_no_id_cons.
    destruct (task_id x); cbn [lookup list_lookup]; rewrite IH.
    + reflexivity.
    + destruct (task_id t); [reflexivity|]. do 2 f_equal. lia.
Qed.

(** X1: [_assign_task_ids] keeps the number and the order of the tasks; a
    task that has an ID is left as it is; a task without ID changes in
    nothing but its ID, which becomes [h + 1 + k], where [h] is the highest
    ID of the collection (0 when no ID is positive) and
    [k] is the number of tasks without ID that stand before it. *)
Theorem _assign_task_ids_backfill (l1 l2 : list Task) (t : Task) :
  let ts := l1 ++ t :: l2 in
  let h := highest_id 0 ts in
  length (_assign_task_ids ts) = length ts
  /\ _assign_task_ids ts !! length l1 =
       Some match task_id t with
            | Some _ => t
            | None => with_task_id (h + 1 + Z.of_nat (count_no_id l1)) t
            end
  /\ 0 <= h
  /\ (forall n, n ∈ present_ids ts -> n <= h)
  /\ (h = 0 \/ h ∈ present_ids ts).
Proof.
  cbv zeta. unfold _assign_task_ids.
  split; [apply length_fill_ids|]. split; [apply fill_ids_lookup|].
  split; [apply highest_id_ge|]. split; [apply highest_id_bound|].
  apply highest_id_attained.
Qed.

Lemma fill_ids_ids (ts : list Task) : forall m n,
  n ∈ present_ids (fill_ids m ts) -> n ∈ present_ids ts \/ m < n.
Proof.
  unfold present_ids.
  induction ts as [|t ts IH]; intros m n Hn; cbn in *; [left; exact Hn|].
  destruct (task_id t) as [k|] eqn:Hk; cbn in Hn.
  - rewrite Hk in Hn. apply elem_of_cons in Hn as [->|Hn]; [left; left|].
    destruct (IH m n Hn) as [H|H]; [left; right; exact H|right; exact H].
  - apply elem_of_cons in Hn as [->|Hn]; [right; lia|].
    destruct (IH (m + 1) n Hn) as [H|H]; [left; exact H|right; lia].
Qed.

Lemma fill_ids_NoDup (ts : list Task) : forall m,
  (forall n, n ∈ present_ids ts -> n <= m) ->
  NoDup (present_ids ts) ->
  NoDup (present_ids (fill_ids m ts)).
Proof.
  unfold present_ids.
  induction ts as [|t ts IH]; intros m Hub Hnd; cbn in *; [constructor|].
  destruct (task_id t) as [k|] eqn:Hk; cbn.
  - rewrite Hk. apply NoDup_cons in Hnd as [Hnotin Hnd].
    apply NoDup_cons. split.
    + intros Hin. apply (fill_ids_ids ts m k) in Hin as [Hin|Hlt].
      * contradiction.
      * specialize (Hub k (list_elem_of_here _ _)). lia.
    + apply IH; [|exact Hnd]. intros n Hn. apply Hub. right. exact Hn.
  - apply NoDup_cons. split.
    + intros Hin. apply (fill_ids_ids ts (m + 1) (m + 1)) in Hin as [Hin|Hlt].
      * specialize (Hub _ Hin). lia.
      * lia.
    + apply IH; [|exact Hnd]. intros n Hn. specialize (Hub n Hn). lia.
Qed.

Lemma task_ids_present (ts : list Task) :
  Forall (fun t => is_Some (task_id t)) ts ->
  map task_id ts = map Some (present_ids ts).
Proof.
  unfold present_ids.
  induction 1 as [|t ts [n Hn] _ IH]; cbn; [reflexivity|].
  rewrite Hn. cbn. f_equal. exact IH.
Qed.

(** X2: when the IDs that are there are pairwise distinct,
    [_assign_task_ids] leaves a collection in which every task has an ID
    and no two tasks share one. *)
Theorem _assign_task_ids_unique (ts : list Task) :
  NoDup (present_ids ts) ->
  Forall (fun t => is_Some (task_id t)) (_assign_task_ids ts)
  /\ NoDup (map task_id (_assign_task_ids ts)).
Proof.
  intros Hnd. split; [apply fill_ids_all|].
  rewrite task_ids_present by apply fill_ids_all.
  apply (NoDup_fmap_2 Some). unfold _assign_task_ids.
  apply fill_ids_NoDup; [|exact Hnd].
  intros n Hn. apply highest_id_bound. exact Hn.
Qed.

Lemma _assign_task_ids_unique_witness :
  NoDup (present_ids legacy_tasks)
  /\ Forall (fun t => is_Some (task_id t)) (_assign_task_ids legacy_tasks)
  /\ NoDup (map task_id (_assign_task_ids legacy_tasks)).
Proof.
  assert (H : NoDup (present_ids legacy_tasks))
    by (apply NoDup_singleton).
  split; [exact H|]. exact (_assign_task_ids_unique legacy_tasks H).
Defined.

Example _assign_task_ids_legacy :
  map task_id (_assign_task_ids legacy_tasks) = [Some 8; Some 7; Some 9].
Proof. reflexivity. Qed.

End Backfill.

(** ** The next ID, in general *)

Section NextIdCases.

Import TodoManager.

Lemma truthy_id_elem (ts : list Task) (k : Z) :
  k ∈ omap (fun task => if id_truthy task then task_id task else None) ts
  <-> exists t, t ∈ ts /\ task_id t = Some k /\ k <> 0.
Proof.
  rewrite list_elem_of_omap. unfold id_truthy. split.
  - intros (t & Hin & Ht). exists t. split; [exact Hin|].
    destruct (task_id t) as [n|]; [|discriminate].
    destruct (n =? 0) eqn:E; cbn in Ht; [discriminate|].
    injection Ht as ->. split; [reflexivity|]. apply Z.eqb_neq. exact E.
  - intros (t & Hin & Ht & Hk). exists t. split; [exact Hin|].
    rewrite Ht. apply Z.eqb_neq in Hk. rewrite Hk. reflexivity.
Qed.

Lemma _get_next_id_Return (ts : list Task) (n : Z) :
  _get_next_id ts = Return n <->
  (ts = [] /\ n = 1)
  \/ (exists t, t ∈ ts /\ task_id t = Some (n - 1) /\ n - 1 <> 0)
     /\ (forall u k, u ∈ ts -> task_id u = Some k -> k <> 0 -> k <= n - 1).
Proof.
  destruct ts as [|t0 ts0] eqn:Hts.
  { cbn. split.
    - intros [= <-]. left. auto.
    - intros [[_ ->]|[(t & Hin & _) _]]; [reflexivity|inversion Hin]. }
  rewrite <- Hts. assert (Hne : ts <> []) by (rewrite Hts; discriminate).
  rewrite _get_next_id_nonempty by exact Hne.
  set (l := omap (fun task => if id_truthy task then task_id task else None) ts).
  split.
  - destruct l as [|x r] eqn:Hl; cbn; [discriminate|]. intros [= <-].
    right.
    assert (Hin : foldl Z.max x r ∈ l) by (rewrite Hl; apply foldl_max_in).
    replace (foldl Z.max x r + 1 - 1) with (foldl Z.max x r) by lia.
    split.
    + apply truthy_id_elem in Hin. exact Hin.
    + intros u k Hu Hk Hk0. apply foldl_max_ge. rewrite <- Hl.
      apply truthy_id_elem. eauto.
  - intros [[E _]|[Hmax Hub]]; [contradiction|].
    rewrite (py_max_spec l (n - 1)).
    + cbn. f_equal. lia.
    + apply truthy_id_elem. exact Hmax.
    + intros k (u & Hu & Hk & Hk0)%truthy_id_elem. eauto.
Qed.

Lemma _get_next_id_Raise (ts : list Task) (e : exn) :
  _get_next_id ts = Raise e <->
  e = ValueError /\ ts <> []
  /\ forall u k, u ∈ ts -> task_id u = Some k -> k = 0.
Proof.
  destruct ts as [|t0 ts0] eqn:Hts.
  { cbn. split; [discriminate|]. intros (_ & H & _). contradiction. }
  rewrite <- Hts. assert (Hne : ts <> []) by (rewrite Hts; discriminate).
  rewrite _get_next_id_nonempty by exact Hne.
  set (l := omap (fun task => if id_truthy task then task_id task else None) ts).
  assert (Hl : forall k, k ∈ l <-> exists t, t ∈ ts /\ task_id t = Some k /\ k <> 0)
    by (intros k; apply truthy_id_elem).
  clearbody l. split.
  - destruct l as [|x r]; cbn; [|discriminate]. intros [= <-].
    split; [reflexivity|]. split; [exact Hne|].
    intros u k Hu Hk. destruct (decide (k = 0)) as [E|E]; [exact E|].
    exfalso. assert (Hin : k ∈ []) by (apply Hl; eauto). inversion Hin.
  - intros (-> & _ & Hzero). destruct l as [|x r]; [reflexivity|].
    exfalso. destruct (proj1 (Hl x)) as (t & Hin & Ht & Hx); [left|].
    apply Hx. eauto.
Qed.

(** X3: what [_get_next_id] does, case by case. On the empty collection it
    returns 1. On a collection that is not empty and has no ID other than 0
    (IDs missing or 0) it raises [ValueError]. Otherwise it returns one
    more than the highest of the IDs other than 0: an ID 0 is passed over
    like a missing one. *)
Theorem _get_next_id_cases (ts : list Task) :
  (ts = [] /\ _get_next_id ts = Return 1)
  \/ (ts <> []
      /\ (forall u k, u ∈ ts -> task_id u = Some k -> k = 0)
      /\ _get_next_id ts = Raise ValueError)
  \/ (exists t m,
        t ∈ ts /\ task_id t = Some m /\ m <> 0
        /\ (forall u k, u ∈ ts -> task_id u = Some k -> k <> 0 -> k <= m)
        /\ _get_next_id ts = Return (m + 1)).
Proof.
  destruct (_get_next_id ts) as [n|e] eqn:Hnext.
  - apply _get_next_id_Return in Hnext as [[-> ->]|[(t & Hin & Ht & Hn) Hub]].
    + left. split; reflexivity.
    + right. right. exists t, (n - 1).
      split; [exact Hin|]. split; [exact Ht|]. split; [exact Hn|].
      split; [exact Hub|]. f_equal. lia.
  - apply _get_next_id_Raise in Hnext as (-> & Hne & Hzero).
    right. left. split; [exact Hne|]. split; [exact Hzero|reflexivity].
Qed.

(** X4: [add_task] raises exactly when the collection is not empty and no
    task has an ID other than 0; the exception is [ValueError], and the
    world is left as it was: nothing appended, nothing saved. *)
Theorem add_task_raises now ti de pr (w : World) :
  ((exists e w', add_task now ti de pr w = Raised e w')
   <-> tasks w <> []
       /\ forall u k, u ∈ tasks w -> task_id u = Some k -> k = 0)
  /\ forall e w', add_task now ti de pr w = Raised e w' ->
                  e = ValueError /\ w' = w.
Proof.
  rewrite add_task_run. split; [split|].
  - intros (e & w' & Hrun).
    destruct (_get_next_id (tasks w)) as [n|e0] eqn:Hnext; [discriminate|].
    apply _get_next_id_Raise in Hnext as (_ & Hne & Hzero). auto.
  - intros [Hne Hzero].
    assert (Hnext : _get_next_id (tasks w) = Raise ValueError)
      by (apply _get_next_id_Raise; auto).
    rewrite Hnext. eauto.
  - intros e w'.
    destruct (_get_next_id (tasks w)) as [n|e0] eqn:Hnext; [discriminate|].
    intros [= <- <-]. apply _get_next_id_Raise in Hnext as (-> & _). auto.
Qed.

Lemma next_id_valid (ts : list Task) :
  valid_ids ts ->
  exists n, _get_next_id ts = Return n /\ 0 < n
            /\ forall u k, u ∈ ts -> task_id u = Some k -> k < n.
Proof.
  intros [Hpos _]. rewrite Forall_forall in Hpos.
  destruct (_get_next_id ts) as [n|e] eqn:Hnext.
  - exists n. split; [reflexivity|].
    apply _get_next_id_Return in Hnext as [[-> ->]|[(t & Hin & Ht & _) Hub]].
    + split; [lia|]. intros u k Hu. inversion Hu.
    + destruct (Hpos t Hin) as (m & Hm & Hm0). rewrite Ht in Hm.
      injection Hm as Hm. split; [lia|].
      intros u k Hu Hk. destruct (Hpos u Hu) as (k' & Hk' & Hk0).
      rewrite Hk in Hk'. injection Hk' as <-.
      specialize (Hub u k Hu Hk). lia.
  - exfalso. apply _get_next_id_Raise in Hnext as (_ & Hne & Hzero).
    destruct ts as [|t ts]; [contradiction|].
    destruct (Hpos t (list_elem_of_here _ _)) as (k & Hk & Hk0).
    specialize (Hzero t k (list_elem_of_here _ _) Hk). lia.
Qed.

Lemma valid_ids_snoc (ts : list Task) (t : Task) (n : Z) :
  valid_ids ts -> task_id t = Some n -> 0 < n ->
  (forall u k, u ∈ ts -> task_id u = Some k -> k < n) ->
  valid_ids (ts ++ [t]).
Proof.
  intros [Hpos Hnd] Ht Hn Hub. split.
  - apply Forall_app. split; [exact Hpos|]. constructor; [eauto|constructor].
  - rewrite map_app. apply NoDup_app. split; [exact Hnd|]. split.
    + intros i (u & -> & Hu)%list_elem_of_fmap Hin. cbn in Hin.
      apply list_elem_of_singleton in Hin. rewrite Ht in Hin.
      specialize (Hub u n Hu Hin). lia.
    + cbn. apply NoDup_singleton.
Qed.

(** X5: on a collection whose IDs are positive and pairwise distinct,
    [add_task] never raises. The new task has a positive ID above every ID
    of the collection, the title, description and priority given, status
    pending, the reading of the clock as creation time and no completion
    time; it is appended after the tasks that were there, which are left
    as they were; the collection is saved once. *)
Theorem add_task_valid now ti de pr (w : World) :
  valid_ids (tasks w) ->
  exists n t w',
    add_task now ti de pr w = Ok t w'
    /\ task_id t = Some n /\ 0 < n
    /\ (forall u k, u ∈ tasks w -> task_id u = Some k -> k < n)
    /\ title t = ti /\ description t = de /\ priority t = pr
    /\ status t = PENDING
    /\ created_at t = isoformat now /\ completed_at t = None
    /\ tasks w' = tasks w ++ [t]
    /\ saves w' = saves w ++ [tasks w'].
Proof.
  intros Hvalid.
  destruct (next_id_valid _ Hvalid) as (n & Hnext & Hn & Hub).
  exists n. eexists _, _. rewrite add_task_run, Hnext.
  split; [reflexivity|]. rewrite saved_tasks, saved_saves.
  cbn [tasks set_tasks Task_init task_id title description priority status
       created_at completed_at].
  do 2 (split; [reflexivity || exact Hn|]).
  split; [exact Hub|]. repeat (split; [reflexivity|]). reflexivity.
Qed.

Lemma add_task_valid_witness :
  valid_ids (tasks two_tasks)
  /\ exists n t w',
      add_task later "Water plants" "" LOW two_tasks = Ok t w'
      /\ task_id t = Some n /\ 0 < n
      /\ (forall u k, u ∈ tasks two_tasks -> task_id u = Some k -> k < n)
      /\ title t = "Water plants" /\ description t = "" /\ priority t = LOW
      /\ status t = PENDING
      /\ created_at t = isoformat later /\ completed_at t = None
      /\ tasks w' = tasks two_tasks ++ [t]
      /\ saves w' = saves two_tasks ++ [tasks w'].
Proof.
  assert (H : valid_ids (tasks two_tasks)).
  { split.
    - repeat constructor; eexists; (split; [reflexivity|lia]).
    - cbn. repeat constructor; rewrite ?elem_of_cons, ?elem_of_nil;
        intros H; repeat destruct H as [H|H]; try discriminate; exact H. }
  split; [exact H|].
  exact (add_task_valid later "Water plants" "" LOW two_tasks H).
Defined.

End NextIdCases.

(** ** IDs and lookups across the operations *)

Section Lookups.

Import TodoManager.

Lemma valid_ids_witness_two : valid_ids (tasks two_tasks).
Proof.
  split.
  - repeat constructor; eexists; (split; [reflexivity|lia]).
  - cbn. repeat constructor; rewrite ?elem_of_cons, ?elem_of_nil;
      intros H; repeat destruct H as [H|H]; try discriminate; exact H.
Defined.

Lemma task_ids_insert (ts : list Task) (i : nat) (t t' : Task) :
  ts !! i = Some t -> task_id t' = task_id t ->
  map task_id (<[i := t']> ts) = map task_id ts.
Proof.
  intros Hi Hid. change (task_id <$> <[i:=t']> ts = task_id <$> ts).
  rewrite list_fmap_insert, Hid. apply list_insert_id.
  rewrite list_lookup_fmap, Hi. reflexivity.
Qed.

Lemma valid_ids_insert (ts : list Task) (i : nat) (t t' : Task) :
  valid_ids ts -> ts !! i = Some t -> task_id t' = task_id t ->
  valid_ids (<[i := t']> ts).
Proof.
  intros [Hpos Hnd] Hi Hid. split.
  - apply Forall_insert; [exact Hpos|]. rewrite Hid.
    eapply Forall_lookup_1 in Hpos; eauto.
  - rewrite (task_ids_insert ts i t t' Hi Hid). exact Hnd.
Qed.

Lemma valid_ids_delete (ts : list Task) (i : nat) :
  valid_ids ts -> valid_ids (delete i ts).
Proof.
  intros [Hpos Hnd]. split.
  - apply Forall_delete. exact Hpos.
  - change (NoDup (task_id <$> delete i ts)). rewrite list_fmap_delete.
    eapply sublist_NoDup; [exact Hnd|]. apply sublist_delete.
Qed.

(** X6: the three operations that change the collection keep its IDs
    positive and pairwise distinct. *)
Theorem valid_ids_kept (w : World) :
  valid_ids (tasks w) ->
  (forall now ti de pr t w',
      add_task now ti de pr w = Ok t w' -> valid_ids (tasks w'))
  /\ (forall now id ti de pr st b w',
      update_task now id ti de pr st w = Ok b w' -> valid_ids (tasks w'))
  /\ (forall id b w',
      delete_task id w = Ok b w' -> valid_ids (tasks w')).
Proof.
  intros Hvalid. split; [|split].
  - intros now ti de pr t w'. rewrite add_task_run.
    destruct (next_id_valid _ Hvalid) as (n & -> & Hn & Hub).
    intros [= <- <-]. rewrite saved_tasks. cbn [tasks set_tasks].
    apply (valid_ids_snoc _ _ n); auto.
  - intros now id ti de pr st b w'. rewrite update_task_run.
    destruct (find_task (tasks w) id) as [[i t]|] eqn:Hfind.
    + intros [= _ <-]. rewrite saved_tasks. cbn [tasks set_tasks].
      apply find_task_Some in Hfind as (Hi & _ & _).
      apply (valid_ids_insert _ i t); auto. apply apply_update_task_id.
    + intros [= _ <-]. exact Hvalid.
  - intros id b w'. rewrite delete_task_run.
    destruct (find_task (tasks w) id) as [[i t]|].
    + intros [= _ <-]. rewrite saved_tasks. cbn [tasks set_tasks].
      apply valid_ids_delete. exact Hvalid.
    + intros [= _ <-]. exact Hvalid.
Qed.

Lemma valid_ids_kept_witness :
  valid_ids (tasks two_tasks)
  /\ (forall now ti de pr t w',
      add_task now ti de pr two_tasks = Ok t w' -> valid_ids (tasks w'))
  /\ (forall now id ti de pr st b w',
      update_task now id ti de pr st two_tasks = Ok b w' ->
      valid_ids (tasks w'))
  /\ (forall id b w',
      delete_task id two_tasks = Ok b w' -> valid_ids (tasks w')).
Proof.
  split; [exact valid_ids_witness_two|].
  exact (valid_ids_kept two_tasks valid_ids_witness_two).
Defined.

(** What a lookup returns, apart from the position. *)
Lemma find_task_skip (id : Z) (l1 l2 : list Task) (t : Task) :
  task_id t <> Some id ->
  snd <$> find_task (l1 ++ t :: l2) id = snd <$> find_task (l1 ++ l2) id.
Proof.
  intros Hne. unfold find_task.
  induction l1 as [|x l1 IH]; cbn.
  - destruct (decide (task_id t = Some id)); [contradiction|].
    destruct (list_find _ l2) as [[j u]|]; reflexivity.
  - destruct (decide (task_id x = Some id)); [reflexivity|].
    destruct (list_find _ (l1 ++ t :: l2)) as [[j u]|],
             (list_find _ (l1 ++ l2)) as [[j' u']|]; cbn in *; congruence.
Qed.

Lemma find_task_snoc_fresh (ts : list Task) (t : Task) (n : Z) :
  id_free n ts -> task_id t = Some n ->
  find_task (ts ++ [t]) n = Some (length ts, t).
Proof. intros Hfree Ht. apply find_task_split; assumption. Qed.

Lemma find_task_snoc_other (ts : list Task) (t : Task) (id : Z) :
  task_id t <> Some id ->
  snd <$> find_task (ts ++ [t]) id = snd <$> find_task ts id.
Proof.
  intros Hne. rewrite (find_task_skip id ts [] t Hne), app_nil_r. reflexivity.
Qed.

Lemma id_free_above (ts : list Task) (n : Z) :
  (forall u k, u ∈ ts -> task_id u = Some k -> k < n) -> id_free n ts.
Proof.
  intros Hub. apply Forall_forall. intros u Hu Hid.
  specialize (Hub u n Hu Hid). lia.
Qed.

Lemma get_task_by_id_run id (w : World) :
  get_task_by_id id w = Ok (snd <$> find_task (tasks w) id) w.
Proof. reflexivity. Qed.

(** X7: after [add_task] on a collection whose IDs are positive and
    pairwise distinct, [get_task_by_id] with the new ID returns the new
    task, and with any other ID it returns what it returned before. *)
Theorem add_task_then_get now ti de pr (w w' : World) (t : Task) :
  valid_ids (tasks w) ->
  add_task now ti de pr w = Ok t w' ->
  exists n,
    task_id t = Some n
    /\ get_task_by_id n w' = Ok (Some t) w'
    /\ get_task_by_id n w = Ok None w
    /\ forall id, id <> n ->
         exists r, get_task_by_id id w = Ok r w
                   /\ get_task_by_id id w' = Ok r w'.
Proof.
  intros Hvalid. rewrite add_task_run.
  destruct (next_id_valid _ Hvalid) as (n & -> & Hn & Hub%id_free_above).
  intros [= <- <-]. exists n. split; [reflexivity|].
  rewrite !get_task_by_id_run, saved_tasks. cbn [tasks set_tasks].
  split; [|split].
  - rewrite (find_task_snoc_fresh _ _ n) by auto. reflexivity.
  - apply find_task_None in Hub. rewrite Hub. reflexivity.
  - intros id Hid. eexists. split; [reflexivity|].
    rewrite get_task_by_id_run, saved_tasks. cbn [tasks set_tasks].
    rewrite find_task_snoc_other; [reflexivity|]. cbn. congruence.
Qed.

Lemma add_task_then_get_witness :
  valid_ids (tasks two_tasks)
  /\ add_task later "Water plants" "" LOW two_tasks
     = Ok (Task_init later "Water plants" "" LOW PENDING None None (Some 3))
          (saved (set_tasks (tasks two_tasks ++
             [Task_init later "Water plants" "" LOW PENDING None None (Some 3)])
             two_tasks))
  /\ exists n,
      task_id (Task_init later "Water plants" "" LOW PENDING None None (Some 3))
      = Some n
      /\ get_task_by_id n (saved (set_tasks (tasks two_tasks ++
             [Task_init later "Water plants" "" LOW PENDING None None (Some 3)])
             two_tasks))
         = Ok (Some (Task_init later "Water plants" "" LOW PENDING None None (Some 3)))
              (saved (set_tasks (tasks two_tasks ++
             [Task_init later "Water plants" "" LOW PENDING None None (Some 3)])
             two_tasks))
      /\ get_task_by_id n two_tasks = Ok None two_tasks
      /\ forall id, id <> n ->
           exists r, get_task_by_id id two_tasks = Ok r two_tasks
                     /\ get_task_by_id id (saved (set_tasks (tasks two_tasks ++
             [Task_init later "Water plants" "" LOW PENDING None None (Some 3)])
             two_tasks))
                        = Ok r (saved (set_tasks (tasks two_tasks ++
             [Task_init later "Water plants" "" LOW PENDING None None (Some 3)])
             two_tasks)).
Proof.
  split; [exact valid_ids_witness_two|]. split; [reflexivity|].
  exact (add_task_then_get later "Water plants" "" LOW two_tasks _ _
           valid_ids_witness_two eq_refl).
Defined.

Lemma id_free_after (id : Z) (l1 l2 : list Task) (t : Task) :
  NoDup (map task_id (l1 ++ t :: l2)) -> task_id t = Some id ->
  id_free id l2.
Proof.
  rewrite map_app. cbn [map]. intros (_ & _ & Hnd)%NoDup_app Ht.
  apply NoDup_cons in Hnd as [Hnotin _].
  apply Forall_forall. intros u Hu Hid. apply Hnotin.
  rewrite Ht, <- Hid. apply (list_elem_of_fmap_2 task_id). exact Hu.
Qed.

(** X8: on a collection whose IDs are pairwise distinct, after
    [delete_task] no task has the ID any more: [get_task_by_id] returns
    [None] and a second [delete_task] returns false and changes nothing.
    With or without distinct IDs, a lookup by any other ID returns what it
    returned before. *)
Theorem delete_task_then_get id b (w w' : World) :
  delete_task id w = Ok b w' ->
  (NoDup (map task_id (tasks w)) ->
     get_task_by_id id w' = Ok None w'
     /\ delete_task id w' = Ok false w')
  /\ forall id', id' <> id ->
       exists r, get_task_by_id id' w = Ok r w
                 /\ get_task_by_id id' w' = Ok r w'.
Proof.
  rewrite delete_task_run.
  destruct (find_task (tasks w) id) as [[i t]|] eqn:Hfind.
  - intros [= _ <-].
    apply find_task_Some_split in Hfind as (l1 & l2 & Hts & <- & Hfree & Ht).
    rewrite !get_task_by_id_run, delete_task_run, saved_tasks.
    cbn [tasks set_tasks]. rewrite Hts, delete_middle. split.
    + intros Hnd. apply (id_free_after id l1 l2 t) in Hnd; [|exact Ht].
      assert (Hnone : find_task (l1 ++ l2) id = None).
      { apply find_task_None. apply Forall_app. split; assumption. }
      rewrite Hnone. split; reflexivity.
    + intros id' Hne. eexists. split; [reflexivity|].
      rewrite get_task_by_id_run, saved_tasks. cbn [tasks set_tasks].
      rewrite ?Hts, ?delete_middle, find_task_skip; [reflexivity|]. congruence.
  - intros [= _ <-]. rewrite get_task_by_id_run, delete_task_run, Hfind.
    split; [split; reflexivity|].
    intros id' _. eexists. split; reflexivity.
Qed.

Lemma delete_task_then_get_witness :
  delete_task 1 two_tasks
  = Ok true (saved (set_tasks [call_mum] two_tasks))
  /\ NoDup (map task_id (tasks two_tasks))
  /\ get_task_by_id 1 (saved (set_tasks [call_mum] two_tasks))
     = Ok None (saved (set_tasks [call_mum] two_tasks))
  /\ delete_task 1 (saved (set_tasks [call_mum] two_tasks))
     = Ok false (saved (set_tasks [call_mum] two_tasks)).
Proof.
  split; [reflexivity|].
  split; [exact (proj2 valid_ids_witness_two)|].
  exact (proj1 (delete_task_then_get 1 true two_tasks _ eq_refl)
           (proj2 valid_ids_witness_two)).
Defined.

(** Without distinct IDs the ID can still be there after [delete_task]. *)
Example delete_task_duplicate_id :
  exists w',
    delete_task 1 (set_tasks [buy_milk; with_task_id 1 call_mum] fresh)
    = Ok true w'
    /\ get_task_by_id 1 w' = Ok (Some (with_task_id 1 call_mum)) w'.
Proof. eexists. split; reflexivity. Qed.

(** X9: after [update_task] found a task, [get_task_by_id] with the same
    ID returns that task with the changes applied, and a lookup by any
    other ID returns what it returned before. *)
Theorem update_task_then_get now id ti de pr st (w w' : World) :
  update_task now id ti de pr st w = Ok true w' ->
  exists t,
    get_task_by_id id w = Ok (Some t) w
    /\ get_task_by_id id w'
       = Ok (Some (apply_update now ti de pr st t)) w'
    /\ forall id', id' <> id ->
         exists r, get_task_by_id id' w = Ok r w
                   /\ get_task_by_id id' w' = Ok r w'.
Proof.
  rewrite update_task_run.
  destruct (find_task (tasks w) id) as [[i t]|] eqn:Hfind; [|discriminate].
  intros [= <-]. exists t.
  rewrite !get_task_by_id_run, saved_tasks, Hfind. cbn [tasks set_tasks].
  split; [reflexivity|]. split.
  - rewrite (find_task_insert _ id i t); [reflexivity|exact Hfind|].
    rewrite apply_update_task_id.
    apply find_task_Some in Hfind as (_ & Ht & _). exact Ht.
  - intros id' Hne. eexists. split; [reflexivity|].
    rewrite get_task_by_id_run, saved_tasks. cbn [tasks set_tasks].
    apply find_task_Some_split in Hfind as (l1 & l2 & Hts & <- & _ & Ht).
    rewrite Hts, insert_middle.
    rewrite !find_task_skip; [reflexivity| |].
    + congruence.
    + rewrite apply_update_task_id. congruence.
Qed.

Lemma update_task_then_get_witness :
  update_task later 2 (Some "Call dad") None None (Some PENDING) two_tasks
  = Ok true (saved (set_tasks
       [buy_milk; apply_update later (Some "Call dad") None None (Some PENDING) call_mum]
       two_tasks))
  /\ exists t,
      get_task_by_id 2 two_tasks = Ok (Some t) two_tasks
      /\ get_task_by_id 2 (saved (set_tasks
           [buy_milk; apply_update later (Some "Call dad") None None (Some PENDING) call_mum]
           two_tasks))
         = Ok (Some (apply_update later (Some "Call dad") None None (Some PENDING) t))
              (saved (set_tasks
           [buy_milk; apply_update later (Some "Call dad") None None (Some PENDING) call_mum]
           two_tasks))
      /\ forall id', id' <> 2 ->
           exists r, get_task_by_id id' two_tasks = Ok r two_tasks
                     /\ get_task_by_id id' (saved (set_tasks
           [buy_milk; apply_update later (Some "Call dad") None None (Some PENDING) call_mum]
           two_tasks))
                        = Ok r (saved (set_tasks
           [buy_milk; apply_update later (Some "Call dad") None None (Some PENDING) call_mum]
           two_tasks)).
Proof.
  split; [reflexivity|].
  exact (update_task_then_get later 2 (Some "Call dad") None None
           (Some PENDING) two_tasks _ eq_refl).
Defined.

(** X10: on a collection whose IDs are positive and pairwise distinct,
    deleting the task that [add_task] just added gives back the collection
    as it was, and the next [add_task] hands out the same ID again. *)
Theorem add_delete_add_reuses_id now ti de pr now' ti' de' pr'
    (w w1 : World) (t : Task) :
  valid_ids (tasks w) ->
  add_task now ti de pr w = Ok t w1 ->
  exists n w2 t' w3,
    task_id t = Some n
    /\ delete_task n w1 = Ok true w2
    /\ tasks w2 = tasks w
    /\ add_task now' ti' de' pr' w2 = Ok t' w3
    /\ task_id t' = Some n.
Proof.
  intros Hvalid. rewrite add_task_run.
  destruct (next_id_valid _ Hvalid) as (n & Hnext & Hn & Hub%id_free_above).
  rewrite Hnext. intros [= <- <-].
  exists n. eexists _, _, _. split; [reflexivity|].
  rewrite delete_task_run, saved_tasks. cbn [tasks set_tasks].
  rewrite (find_task_snoc_fresh _ _ n) by auto.
  split; [reflexivity|].
  rewrite saved_tasks. cbn [tasks set_tasks].
  rewrite (delete_middle (tasks w) []), app_nil_r.
  split; [reflexivity|].
  rewrite add_task_run, saved_tasks. cbn [tasks set_tasks].
  rewrite Hnext. split; reflexivity.
Qed.

Lemma add_delete_add_reuses_id_witness :
  valid_ids (tasks two_tasks)
  /\ exists n w2 t' w3,
      task_id (Task_init noon "a" "" LOW PENDING None None (Some 3)) = Some n
      /\ delete_task n
           (saved (set_tasks (tasks two_tasks ++
              [Task_init noon "a" "" LOW PENDING None None (Some 3)]) two_tasks))
         = Ok true w2
      /\ tasks w2 = tasks two_tasks
      /\ add_task later "b" "" HIGH w2 = Ok t' w3
      /\ task_id t' = Some n.
Proof.
  split; [exact valid_ids_witness_two|].
  exact (add_delete_add_reuses_id noon "a" "" LOW later "b" "" HIGH
           two_tasks _ _ valid_ids_witness_two eq_refl).
Defined.

End Lookups.

(** ** Saving and starting again *)

Section Persistence.

Import TodoStorage TodoManager.


Lemma saved_writable (w : World) : writable (saved w) = writable w.
Proof. unfold saved. destruct (writable w) eqn:E; cbn; exact E. Qed.

Lemma saved_unwritable (w : World) :
  writable w = false ->
  file (saved w) = file w
  /\ console (saved w) = console w ++ [ErrorSaving OSError].
Proof. unfold saved. intros ->. split; reflexivity. Qed.

(** X11: when the file cannot be written, [add_task], [update_task] and
    [delete_task] still change the collection in memory and report
    success; the file keeps its content, and the only trace of the failure
    is one error message on the console. *)
Theorem unsaved_changes_reported_as_success (w : World) :
  writable w = false ->
  (forall now ti de pr t w',
      add_task now ti de pr w = Ok t w' ->
      tasks w' = tasks w ++ [t]
      /\ file w' = file w
      /\ console w' = console w ++ [ErrorSaving OSError])
  /\ (forall now id ti de pr st w',
      update_task now id ti de pr st w = Ok true w' ->
      (exists i t, find_task (tasks w) id = Some (i, t)
                   /\ tasks w' = <[i := apply_update now ti de pr st t]> (tasks w))
      /\ file w' = file w
      /\ console w' = console w ++ [ErrorSaving OSError])
  /\ (forall id w',
      delete_task id w = Ok true w' ->
      (exists i t, find_task (tasks w) id = Some (i, t)
                   /\ tasks w' = delete i (tasks w))
      /\ file w' = file w
      /\ console w' = console w ++ [ErrorSaving OSError]).
Proof.
  intros Hw. split; [|split].
  - intros now ti de pr t w'. rewrite add_task_run.
    destruct (_get_next_id (tasks w)) as [n|]; [|discriminate].
    intros [= <- <-]. rewrite saved_tasks.
    split; [reflexivity|]. apply (saved_unwritable (set_tasks _ w)). exact Hw.
  - intros now id ti de pr st w'. rewrite update_task_run.
    destruct (find_task (tasks w) id) as [[i t]|]; [|discriminate].
    intros [= <-]. rewrite saved_tasks.
    split; [eauto|]. apply (saved_unwritable (set_tasks _ w)). exact Hw.
  - intros id w'. rewrite delete_task_run.
    destruct (find_task (tasks w) id) as [[i t]|]; [|discriminate].
    intros [= <-]. rewrite saved_tasks.
    split; [eauto|]. apply (saved_unwritable (set_tasks _ w)). exact Hw.
Qed.

Lemma unsaved_changes_reported_as_success_witness :
  writable read_only = false
  /\ delete_task 1 read_only
     = Ok true (saved (set_tasks [call_mum] read_only))
  /\ (exists i t, find_task (tasks read_only) 1 = Some (i, t)
                  /\ tasks (saved (set_tasks [call_mum] read_only))
                     = delete i (tasks read_only))
  /\ file (saved (set_tasks [call_mum] read_only)) = file read_only
  /\ console (saved (set_tasks [call_mum] read_only))
     = console read_only ++ [ErrorSaving OSError].
Proof.
  split; [reflexivity|]. split; [reflexivity|].
  exact (proj2 (proj2 (unsaved_changes_reported_as_success read_only eq_refl))
           1 _ eq_refl).
Defined.




End Persistence.

(** ** Loading what cannot be loaded *)

Section Loading.

Import TodoStorage TodoManager.

Lemma load_tasks_body_world clock (w w1 : World) :
  (forall e, load_tasks_body clock w = Raised e w1 -> w1 = w)
  /\ (forall objs, load_tasks_body clock w = Ok objs w1 -> w1 = w).
Proof.
  unfold load_tasks_body, bind, gets, lift, ret.
  destruct (file w) as [|e'|data].
  - split; [discriminate|]. intros objs [= _ ->]. reflexivity.
  - split; [|discriminate]. intros e [= _ ->]. reflexivity.
  - destruct (l <-! TodoStorage.iterate data;; from_dicts clock 0 l).
    + split; [discriminate|]. intros objs [= _ ->]. reflexivity.
    + split; [|discriminate]. intros e0 [= _ ->]. reflexivity.
Qed.

Lemma load_tasks_run clock (w : World) :
  load_tasks clock w =
    match load_tasks_body clock w with
    | Ok objs _ => Ok objs w
    | Raised e _ => Ok [] (warned e w)
    end.
Proof.
  unfold load_tasks, try_except.
  destruct (load_tasks_body clock w) as [objs w1|e w1] eqn:Hrun.
  - apply (proj2 (load_tasks_body_world clock w w1)) in Hrun as ->.
    reflexivity.
  - apply (proj1 (load_tasks_body_world clock w w1)) in Hrun as ->.
    unfold warned. destruct (is_ValueError e || is_KeyError e); reflexivity.
Qed.

Lemma console_warned (e : exn) (w : World) :
  console (warned e w) = console w ++ load_warnings e
  /\ tasks (warned e w) = tasks w /\ file (warned e w) = file w
  /\ saves (warned e w) = saves w /\ writable (warned e w) = writable w.
Proof.
  unfold warned, load_warnings.
  destruct (is_ValueError e || is_KeyError e); cbn;
    rewrite <- ?app_assoc; repeat split; reflexivity.
Qed.

Lemma from_dicts_bad_record clock (l1 l2 : list val) (d : val) (e : exn) :
  (forall now, from_dict now d = Raise e) ->
  forall i, exists e', from_dicts clock i (l1 ++ d :: l2) = Raise e'.
Proof.
  intros Hbad. induction l1 as [|x l1 IH]; intros i; cbn.
  - rewrite Hbad. cbn. eauto.
  - destruct (from_dict (clock i) x); cbn; [|eauto].
    destruct (IH (S i)) as [e' ->]. cbn. eauto.
Qed.

(** X13: one record that [from_dict] rejects is enough for [load_tasks] to
    return the empty list: the tasks of the records that are in order,
    before or after it, are not returned either. A warning is printed. *)
Theorem load_tasks_all_or_nothing clock (w : World) l1 d l2 e :
  file w = Decoded (VList (l1 ++ d :: l2)) ->
  (forall now, from_dict now d = Raise e) ->
  exists e' w',
    load_tasks clock w = Ok [] w'
    /\ console w' = console w ++ load_warnings e'
    /\ load_warnings e' <> []
    /\ tasks w' = tasks w /\ file w' = file w.
Proof.
  intros Hfile Hbad.
  destruct (from_dicts_bad_record clock l1 l2 d e Hbad 0%nat) as [e' He'].
  exists e', (warned e' w). rewrite load_tasks_run.
  unfold load_tasks_body, bind, gets, lift. rewrite Hfile. cbn [iterate ebind].
  rewrite He'.
  destruct (console_warned e' w) as (Hc & Ht & Hf & _).
  split; [reflexivity|]. split; [exact Hc|].
  split; [|split; [exact Ht|rewrite Hf; exact Hfile]].
  unfold load_warnings. destruct (is_ValueError e' || is_KeyError e'); discriminate.
Qed.

Lemma load_tasks_all_or_nothing_witness :
  file half_good_file
  = Decoded (VList ([to_dict buy_milk] ++ VDict [("task_id", VInt 2)] :: []))
  /\ (forall now, from_dict now (VDict [("task_id", VInt 2)])
                  = Raise (KeyError "title"))
  /\ exists e' w',
      load_tasks (fun _ => noon) half_good_file = Ok [] w'
      /\ console w' = console half_good_file ++ load_warnings e'
      /\ load_warnings e' <> []
      /\ tasks w' = tasks half_good_file /\ file w' = file half_good_file.
Proof.
  assert (H : forall now, from_dict now (VDict [("task_id", VInt 2)])
                          = Raise (KeyError "title"))
    by (intros now; reflexivity).
  split; [reflexivity|]. split; [exact H|].
  exact (load_tasks_all_or_nothing (fun _ => noon) half_good_file
           [to_dict buy_milk] (VDict [("task_id", VInt 2)]) []
           (KeyError "title") eq_refl H).
Defined.




End Loading.

(** ** What [from_dict] accepts *)

Section Records_in.

Lemma Priority_of_Return (v : val) (p : Priority) :
  Priority_of v = Return p <-> v = VStr (Priority_value p).
Proof.
  split.
  - destruct v as [| | | |s| |]; try discriminate. cbn.
    destruct (String.eqb s "low") eqn:E1;
      [apply String.eqb_eq in E1; intros [= <-]; subst; reflexivity|].
    destruct (String.eqb s "medium") eqn:E2;
      [apply String.eqb_eq in E2; intros [= <-]; subst; reflexivity|].
    destruct (String.eqb s "high") eqn:E3;
      [apply String.eqb_eq in E3; intros [= <-]; subst; reflexivity|].
    discriminate.
  - intros ->. destruct p; reflexivity.
Qed.

Lemma Status_of_Return (v : val) (s : Status) :
  Status_of v = Return s <-> v = VStr (Status_value s).
Proof.
  split.
  - destruct v as [| | | |x| |]; try discriminate. cbn.
    destruct (String.eqb x "pending") eqn:E1;
      [apply String.eqb_eq in E1; intros [= <-]; subst; reflexivity|].
    destruct (String.eqb x "in_progress") eqn:E2;
      [apply String.eqb_eq in E2; intros [= <-]; subst; reflexivity|].
    destruct (String.eqb x "completed") eqn:E3;
      [apply String.eqb_eq in E3; intros [= <-]; subst; reflexivity|].
    discriminate.
  - intros ->. destruct s; reflexivity.
Qed.

Lemma Priority_of_Raise (v : val) (e : exn) :
  Priority_of v = Raise e -> e = ValueError.
Proof.
  destruct v as [| | | |s| |]; cbn; try (intros [= <-]; reflexivity).
  destruct (String.eqb s "low"); [discriminate|].
  destruct (String.eqb s "medium"); [discriminate|].
  destruct (String.eqb s "high"); [discriminate|].
  intros [= <-]. reflexivity.
Qed.

Lemma Status_of_Raise (v : val) (e : exn) :
  Status_of v = Raise e -> e = ValueError.
Proof.
  destruct v as [| | | |s| |]; cbn; try (intros [= <-]; reflexivity).
  destruct (String.eqb s "pending"); [discriminate|].
  destruct (String.eqb s "in_progress"); [discriminate|].
  destruct (String.eqb s "completed"); [discriminate|].
  intros [= <-]. reflexivity.
Qed.

(** X16: the values of the members of [Priority] and of [Status] are read
    back as the members they come from, and nothing else is read as a
    member: [Priority(v)] and [Status(v)] raise [ValueError] for any other
    value, text or not. *)
Theorem enum_values_roundtrip :
  (forall v p, Priority_of v = Return p <-> v = VStr (Priority_value p))
  /\ (forall v s, Status_of v = Return s <-> v = VStr (Status_value s))
  /\ (forall v e, Priority_of v = Raise e -> e = ValueError)
  /\ (forall v e, Status_of v = Raise e -> e = ValueError).
Proof.
  split; [exact Priority_of_Return|]. split; [exact Status_of_Return|].
  split; [exact Priority_of_Raise|exact Status_of_Raise].
Qed.

Lemma from_dict_dict now (items : list (string * val)) :
  from_dict now (VDict items) =
    match items_get "title" items with
    | None => Raise (KeyError "title")
    | Some ti =>
        p <-! Priority_of (default (VStr "medium") (items_get "priority" items)) ;;
        s <-! Status_of (default (VStr "pending") (items_get "status" items)) ;;
        Return (TaskObj_init now ti
                  (default (VStr "") (items_get "description" items)) p s
                  (default VNone (items_get "created_at" items))
                  (default VNone (items_get "completed_at" items))
                  (default VNone (items_get "task_id" items)))
    end.
Proof.
  unfold from_dict, get, subscript. cbn [ebind Priority_value Status_value].
  destruct (items_get "title" items); [|reflexivity].
  destruct (Priority_of _); [|reflexivity]. cbn [ebind].
  destruct (Status_of _); reflexivity.
Qed.

Lemma default_token (o : option val) (d x : string) :
  default (VStr d) o = VStr x <->
  (o = None /\ x = d) \/ o = Some (VStr x).
Proof.
  destruct o as [v|]; cbn; split.
  - intros ->. right. reflexivity.
  - intros [[? _]|[= ->]]; [discriminate|reflexivity].
  - intros [= ->]. left. auto.
  - intros [[_ ->]|?]; [reflexivity|discriminate].
Qed.

(** X17: [from_dict] builds a task exactly from a dict that has a title and
    whose priority and status, when there, are one of the three tokens
    each. A missing priority reads as medium, a missing status as pending,
    a missing description as the empty text, a missing ID or completion
    time as [None]; a creation time that is missing, null or empty is
    replaced by the reading of the clock. Title, description, ID and
    timestamps are taken as they are, of whatever type. *)
Theorem from_dict_accepts now (data : val) (o : TaskObj) :
  from_dict now data = Return o <->
  exists items ti p s,
    data = VDict items
    /\ items_get "title" items = Some ti
    /\ (items_get "priority" items = None /\ Priority_value p = "medium"
        \/ items_get "priority" items = Some (VStr (Priority_value p)))
    /\ (items_get "status" items = None /\ Status_value s = "pending"
        \/ items_get "status" items = Some (VStr (Status_value s)))
    /\ o = {| obj_task_id := default VNone (items_get "task_id" items);
              obj_title := ti;
              obj_description := default (VStr "") (items_get "description" items);
              obj_priority := p;
              obj_status := s;
              obj_created_at :=
                (let c := default VNone (items_get "created_at" items) in
                 if truthy c then c else VStr (isoformat now));
              obj_completed_at := default VNone (items_get "completed_at" items) |}.
Proof.
  split.
  - destruct data as [| | | | | |items]; try discriminate.
    rewrite from_dict_dict.
    destruct (items_get "title" items) as [ti|] eqn:Hti; [|discriminate].
    destruct (Priority_of _) as [p|] eqn:Hp; [|discriminate].
    destruct (Status_of _) as [s|] eqn:Hs; [|discriminate].
    cbn [ebind]. intros [= <-]. exists items, ti, p, s.
    apply Priority_of_Return, default_token in Hp.
    apply Status_of_Return, default_token in Hs.
    split; [reflexivity|]. split; [exact Hti|].
    split; [exact Hp|]. split; [exact Hs|]. reflexivity.
  - intros (items & ti & p & s & -> & Hti & Hp & Hs & ->).
    rewrite from_dict_dict, Hti.
    apply (default_token _ "medium"), Priority_of_Return in Hp.
    apply (default_token _ "pending"), Status_of_Return in Hs.
    rewrite Hp. cbn [ebind]. rewrite Hs. reflexivity.
Qed.

(** X18: the exception [from_dict] raises. [AttributeError] for a record
    that is not a dict; [KeyError] for a dict without title, whatever else
    it holds; [ValueError] for a dict with a title whose priority or status
    is there and is not one of the tokens. Nothing else is raised. *)
Theorem from_dict_rejects now (data : val) (e : exn) :
  from_dict now data = Raise e <->
  (e = AttributeError /\ forall items, data <> VDict items)
  \/ exists items,
      data = VDict items
      /\ ((e = KeyError "title" /\ items_get "title" items = None)
          \/ (e = ValueError /\ is_Some (items_get "title" items)
              /\ ((forall p, default (VStr "medium") (items_get "priority" items)
                             <> VStr (Priority_value p))
                  \/ (forall s, default (VStr "pending") (items_get "status" items)
                                <> VStr (Status_value s))))).
Proof.
  split.
  - destruct data as [| | | | | |items];
      try (intros [= <-]; left; split; [reflexivity|discriminate]).
    rewrite from_dict_dict. intros Hrun. right. exists items.
    split; [reflexivity|].
    destruct (items_get "title" items) as [ti|] eqn:Hti;
      [|injection Hrun as <-; left; auto].
    right.
    destruct (Priority_of _) as [p|e0] eqn:Hp; cbn [ebind] in Hrun.
    + destruct (Status_of _) as [s|e1] eqn:Hs; cbn [ebind] in Hrun;
        [discriminate|].
      injection Hrun as <-. split; [eapply Status_of_Raise; eauto|].
      split; [eauto|]. right. intros s Heq.
      apply Status_of_Return in Heq. congruence.
    + injection Hrun as <-. split; [eapply Priority_of_Raise; eauto|].
      split; [eauto|]. left. intros p Heq.
      apply Priority_of_Return in Heq. congruence.
  - intros [[-> Hnot]|(items & -> & [[-> Hti]|(-> & [ti Hti] & Hbad)])].
    + apply from_dict_not_a_dict. exact Hnot.
    + apply from_dict_no_title. exact Hti.
    + rewrite from_dict_dict, Hti.
      destruct (Priority_of _) as [p|e0] eqn:Hp; cbn [ebind].
      * destruct (Status_of _) as [s|e1] eqn:Hs; cbn [ebind].
        -- exfalso. apply Priority_of_Return in Hp.
           apply Status_of_Return in Hs.
           destruct Hbad as [Hbad|Hbad]; eapply Hbad; eauto.
        -- f_equal. eapply Status_of_Raise; eauto.
      * f_equal. eapply Priority_of_Raise; eauto.
Qed.

End Records_in.

(** ** Views of the collection *)

Section Views.

Import TodoManager.

Lemma filter_status_partition (ts : list Task) :
  filter (fun t => status t = PENDING) ts
  ++ filter (fun t => status t = IN_PROGRESS) ts
  ++ filter (fun t => status t = COMPLETED) ts ≡ₚ ts.
Proof.
  induction ts as [|t ts IH]; [reflexivity|].
  rewrite !filter_cons.
  destruct (status t) eqn:E; repeat case_decide; try congruence.
  - cbn. constructor. exact IH.
  - rewrite <- app_comm_cons, <- Permutation_middle. constructor. exact IH.
  - rewrite app_assoc, <- Permutation_middle, <- app_assoc.
    constructor. exact IH.
Qed.

(** X19: the three status filters of [get_tasks] split the collection:
    their results, put end to end, hold every task of the collection
    exactly once; none of the three calls changes the world. *)
Theorem get_tasks_partition (w : World) :
  exists p i c,
    get_tasks (Some PENDING) w = Ok p w
    /\ get_tasks (Some IN_PROGRESS) w = Ok i w
    /\ get_tasks (Some COMPLETED) w = Ok c w
    /\ p ++ i ++ c ≡ₚ tasks w
    /\ (length p + length i + length c = length (tasks w))%nat.
Proof.
  eexists _, _, _. do 3 (split; [reflexivity|]).
  split; [apply filter_status_partition|].
  rewrite <- (Permutation_length (filter_status_partition (tasks w))).
  rewrite !length_app. lia.
Qed.

(** X20: [mark_completed] returns false and changes nothing when no task
    has the ID. Otherwise it returns true; the first task with the ID,
    whatever its status was, is completed with the reading of the clock as
    completion time (a completion time it had is replaced); its title,
    description, priority, ID and creation time stay, as do the other
    tasks; the collection is saved, and [get_tasks] with the filter
    completed then lists the task at its place. *)
Theorem mark_completed_spec now id (w : World) :
  (id_free id (tasks w) -> mark_completed now id w = Ok false w)
  /\ forall l1 t l2,
      tasks w = l1 ++ t :: l2 -> id_free id l1 -> task_id t = Some id ->
      exists t' w',
        mark_completed now id w = Ok true w'
        /\ tasks w' = l1 ++ t' :: l2
        /\ status t' = COMPLETED
        /\ completed_at t' = Some (isoformat now)
        /\ title t' = title t /\ description t' = description t
        /\ priority t' = priority t
        /\ task_id t' = task_id t /\ created_at t' = created_at t
        /\ saves w' = saves w ++ [tasks w']
        /\ get_tasks (Some COMPLETED) w'
           = Ok (filter (fun u => status u = COMPLETED) l1
                 ++ t' :: filter (fun u => status u = COMPLETED) l2) w'.
Proof.
  unfold mark_completed. split.
  - intros Hfree. rewrite update_task_run.
    apply find_task_None in Hfree. rewrite Hfree. reflexivity.
  - intros l1 t l2 Hts Hfree Hid.
    exists (apply_update now None None None (Some COMPLETED) t). eexists.
    rewrite update_task_run, Hts, (find_task_split id l1 l2 t Hfree Hid).
    rewrite insert_middle. split; [reflexivity|].
    rewrite saved_tasks, saved_saves. cbn [tasks set_tasks].
    do 9 (split; [reflexivity|]).
    unfold get_tasks, bind, gets, ret. rewrite saved_tasks.
    cbn [tasks set_tasks]. rewrite filter_app, filter_cons_True by reflexivity.
    reflexivity.
Qed.

Lemma mark_completed_spec_witness :
  (id_free 7 (tasks two_tasks)
   /\ mark_completed later 7 two_tasks = Ok false two_tasks)
  /\ exists t' w',
      mark_completed later 1 two_tasks = Ok true w'
      /\ tasks w' = [] ++ t' :: [call_mum]
      /\ status t' = COMPLETED
      /\ completed_at t' = Some (isoformat later)
      /\ title t' = title buy_milk /\ description t' = description buy_milk
      /\ priority t' = priority buy_milk
      /\ task_id t' = task_id buy_milk /\ created_at t' = created_at buy_milk
      /\ saves w' = saves two_tasks ++ [tasks w']
      /\ get_tasks (Some COMPLETED) w'
         = Ok (filter (fun u => status u = COMPLETED) []
               ++ t' :: filter (fun u => status u = COMPLETED) [call_mum]) w'.
Proof.
  assert (H7 : id_free 7 (tasks two_tasks))
    by (repeat constructor; discriminate).
  split.
  - split; [exact H7|].
    exact (proj1 (mark_completed_spec later 7 two_tasks) H7).
  - exact (proj2 (mark_completed_spec later 1 two_tasks) [] buy_milk
             [call_mum] eq_refl (Forall_nil_2 _) eq_refl).
Defined.

End Views.

(** ** What the operations keep true *)

Section Kept.

Import TodoStorage TodoManager.

Lemma apply_update_coherent now ti de pr st t :
  timestamps_coherent t ->
  timestamps_coherent (apply_update now ti de pr st t).
Proof.
  intros [Hc Hp]. unfold timestamps_coherent.
  rewrite apply_update_status, apply_update_completed_at.
  destruct st as [[]|]; cbn; split; intros H; try discriminate; eauto.
Qed.

(** X21: if every completed task of the collection has a completion time
    and no task in progress has one, this is still so after [add_task],
    [update_task] and [delete_task]. (A pending task may have a completion
    time: [update_task] with status pending does not clear it.) *)
Theorem timestamps_coherent_kept (w : World) :
  Forall timestamps_coherent (tasks w) ->
  (forall now ti de pr t w',
      add_task now ti de pr w = Ok t w' ->
      Forall timestamps_coherent (tasks w'))
  /\ (forall now id ti de pr st b w',
      update_task now id ti de pr st w = Ok b w' ->
      Forall timestamps_coherent (tasks w'))
  /\ (forall id b w',
      delete_task id w = Ok b w' ->
      Forall timestamps_coherent (tasks w')).
Proof.
  intros Hall. split; [|split].
  - intros now ti de pr t w' Hrun.
    apply (add_task_keeps timestamps_coherent now ti de pr w w' t);
      [|exact Hall|exact Hrun].
    intros n. split; discriminate.
  - intros now id ti de pr st b w' Hrun.
    apply (update_task_keeps timestamps_coherent now id ti de pr st w w' b);
      [|exact Hall|exact Hrun].
    intros t. apply apply_update_coherent.
  - intros id b w' Hrun.
    apply (delete_task_keeps timestamps_coherent id w w' b);
      [exact Hall|exact Hrun].
Qed.

Lemma two_tasks_coherent : Forall timestamps_coherent (tasks two_tasks).
Proof.
  repeat constructor; try discriminate. intros _. eexists. reflexivity.
Defined.

Lemma timestamps_coherent_kept_witness :
  Forall timestamps_coherent (tasks two_tasks)
  /\ update_task later 2 None None None (Some IN_PROGRESS) two_tasks
     = Ok true (saved (set_tasks
         [buy_milk; apply_update later None None None (Some IN_PROGRESS) call_mum]
         two_tasks))
  /\ Forall timestamps_coherent
       (tasks (saved (set_tasks
         [buy_milk; apply_update later None None None (Some IN_PROGRESS) call_mum]
         two_tasks))).
Proof.
  split; [exact two_tasks_coherent|]. split; [reflexivity|].
  exact (proj1 (proj2 (timestamps_coherent_kept two_tasks two_tasks_coherent))
           later 2 None None None (Some IN_PROGRESS) true _ eq_refl).
Defined.

(** A completed task made pending again keeps its completion time. *)
Example pending_with_completion_time :
  exists t w',
    update_task later 2 None None None (Some PENDING) two_tasks = Ok true w'
    /\ get_task_by_id 2 w' = Ok (Some t) w'
    /\ status t = PENDING
    /\ completed_at t = Some "2025-06-15T18:30:05.000250".
Proof. eexists _, _. repeat split. Qed.

(** X22: if every task of the collection has an ID and ISO-8601
    timestamps, this is still so after [add_task], [update_task] and
    [delete_task]: the timestamps the manager writes are ISO-8601. *)
Theorem in_data_model_kept (w : World) :
  Forall in_data_model (tasks w) ->
  (forall now ti de pr t w',
      add_task now ti de pr w = Ok t w' ->
      Forall in_data_model (tasks w') /\ in_data_model t)
  /\ (forall now id ti de pr st b w',
      update_task now id ti de pr st w = Ok b w' ->
      Forall in_data_model (tasks w'))
  /\ (forall id b w',
      delete_task id w = Ok b w' ->
      Forall in_data_model (tasks w')).
Proof.
  intros Hall. split; [|split].
  - intros now ti de pr t w' Hrun.
    apply (add_task_keeps in_data_model now ti de pr w w' t);
      [|exact Hall|exact Hrun].
    intros n. apply Task_init_in_data_model.
  - intros now id ti de pr st b w' Hrun.
    apply (update_task_keeps in_data_model now id ti de pr st w w' b);
      [|exact Hall|exact Hrun].
    intros t. apply apply_update_in_data_model.
  - intros id b w' Hrun.
    apply (delete_task_keeps in_data_model id w w' b);
      [exact Hall|exact Hrun].
Qed.

Lemma in_data_model_kept_witness :
  Forall in_data_model (tasks two_tasks)
  /\ update_task later 1 None None None (Some COMPLETED) two_tasks
     = Ok true (saved (set_tasks
         [apply_update later None None None (Some COMPLETED) buy_milk; call_mum]
         two_tasks))
  /\ Forall in_data_model
       (tasks (saved (set_tasks
         [apply_update later None None None (Some COMPLETED) buy_milk; call_mum]
         two_tasks))).
Proof.
  split; [exact two_tasks_in_data_model|]. split; [reflexivity|].
  exact (proj1 (proj2 (in_data_model_kept two_tasks two_tasks_in_data_model))
           later 1 None None None (Some COMPLETED) true _ eq_refl).
Defined.

(** X23: [get_task_by_id] returns a task of the collection that has the
    ID, the first such task in the order of the collection; it returns
    [None] exactly when no task has the ID. It changes nothing. *)
Theorem get_task_by_id_spec id (w : World) :
  exists r,
    get_task_by_id id w = Ok r w
    /\ (r = None <-> id_free id (tasks w))
    /\ forall t, r = Some t ->
         exists l1 l2, tasks w = l1 ++ t :: l2
                       /\ id_free id l1 /\ task_id t = Some id.
Proof.
  exists (snd <$> find_task (tasks w) id). split; [reflexivity|].
  destruct (find_task (tasks w) id) as [[i u]|] eqn:Hfind; cbn.
  - split.
    + split; [discriminate|]. intros Hfree%find_task_None. congruence.
    + intros t [= <-].
      apply find_task_Some_split in Hfind as (l1 & l2 & ? & _ & ? & ?).
      eauto.
  - split; [|discriminate]. split; [|reflexivity].
    intros _. apply find_task_None. exact Hfind.
Qed.

Lemma highest_id_no_id (ts : list Task) (t : Task) : forall m,
  task_id t = None -> highest_id m (ts ++ [t]) = highest_id m ts.
Proof.
  intros m Ht. revert m. induction ts as [|x ts IH]; intros m; cbn.
  - rewrite Ht. reflexivity.
  - destruct (task_id x); apply IH.
Qed.

Lemma count_no_id_positive (ts : list Task) :
  positive_ids ts -> count_no_id ts = 0%nat.
Proof.
  induction 1 as [|t ts (n & Hn & _) _ IH]; [reflexivity|].
  rewrite count_no_id_cons, Hn. exact IH.
Qed.

Lemma next_id_is_highest_plus_1 (ts : list Task) :
  positive_ids ts -> _get_next_id ts = Return (highest_id 0 ts + 1).
Proof.
  intros Hpos. pose proof Hpos as Hall. unfold positive_ids in Hall.
  rewrite Forall_forall in Hall.
  destruct ts as [|t0 ts0] eqn:Hts; [reflexivity|]. rewrite <- Hts in *.
  assert (Hne : ts <> []) by (rewrite Hts; discriminate).
  destruct (highest_id_attained ts 0) as [H0|Hin].
  - exfalso. assert (Ht0 : t0 ∈ ts) by (rewrite Hts; left).
    destruct (Hall t0 Ht0) as (k & Hk & Hk0).
    assert (k <= highest_id 0 ts).
    { apply highest_id_bound. unfold present_ids.
      apply list_elem_of_omap. eauto. }
    lia.
  - apply _get_next_id_Return. right.
    replace (highest_id 0 ts + 1 - 1) with (highest_id 0 ts) by lia.
    unfold present_ids in Hin.
    apply list_elem_of_omap in Hin as (t & Ht & Hid).
    destruct (Hall t Ht) as (k & Hk & Hk0).
    split.
    + exists t. split; [exact Ht|]. split; [exact Hid|].
      assert (highest_id 0 ts = k) by congruence. lia.
    + intros u j Hu Hj _. apply highest_id_bound. unfold present_ids.
      apply list_elem_of_omap. eauto.
Qed.

(** X24: on a collection whose tasks all have a positive ID, the two rules
    for new IDs agree: the ID that [add_task] gives is one more than the
    highest ID, and it is the ID that [_assign_task_ids] gives to a task
    without ID placed at the end of the collection. *)
Theorem next_id_rules_agree now ti de pr (w : World) (t0 : Task) :
  positive_ids (tasks w) ->
  task_id t0 = None ->
  exists n t w',
    add_task now ti de pr w = Ok t w'
    /\ task_id t = Some n
    /\ n = highest_id 0 (tasks w) + 1
    /\ _assign_task_ids (tasks w ++ [t0]) = tasks w ++ [with_task_id n t0].
Proof.
  intros Hpos Ht0. rewrite add_task_run, (next_id_is_highest_plus_1 _ Hpos).
  eexists _, _, _. split; [reflexivity|]. split; [reflexivity|].
  split; [reflexivity|].
  unfold _assign_task_ids. rewrite (highest_id_no_id _ _ _ Ht0).
  generalize (highest_id 0 (tasks w)). intros h.
  revert h. induction Hpos as [|x ts (k & Hk & _) _ IH]; intros h; cbn.
  - rewrite Ht0. reflexivity.
  - rewrite Hk. f_equal. apply IH.
Qed.

Lemma next_id_rules_agree_witness :
  positive_ids (tasks two_tasks)
  /\ task_id (without_id buy_milk) = None
  /\ exists n t w',
      add_task later "x" "" LOW two_tasks = Ok t w'
      /\ task_id t = Some n
      /\ n = highest_id 0 (tasks two_tasks) + 1
      /\ _assign_task_ids (tasks two_tasks ++ [without_id buy_milk])
         = tasks two_tasks ++ [with_task_id n (without_id buy_milk)].
Proof.
  assert (H : positive_ids (tasks two_tasks))
    by (repeat constructor; eexists; (split; [reflexivity|lia])).
  split; [exact H|]. split; [reflexivity|].
  exact (next_id_rules_agree later "x" "" LOW two_tasks (without_id buy_milk)
           H eq_refl).
Defined.


End Kept.
